(** * Heart-disease prediction service: the request pipeline of
      [api/main.py] and the helper of [src/inference.py].

    The development embeds the Python code shallowly:
    - the Prometheus metrics of [api/main.py] are a record [Metrics];
    - handler code runs in a small monad [M] that threads the metrics,
      records the calls made to the collaborators (metric objects, the
      unpickled estimators, [joblib.load]) and propagates exceptions, with
      [try_except] and [try_finally] for the Python statements of the same
      name;
    - the unpickled preprocessor and model are records of functions that
      return a value or raise;
    - floats are rationals extended with the two infinities and NaN
      (rounding is not modelled), compared as IEEE 754 does.

    Calls to [logger] and [print] only write text and are left out. *)

From Stdlib Require Import ZArith QArith Lia.
From stdpp Require Import base option list strings pretty gmap.

Local Open Scope Z_scope.

(** ** Python values *)

(** A Python [float]: a rational, an infinity, or NaN. *)
Inductive pyfloat :=
| Finite (q : Q)
| PosInf
| NegInf
| NaN.

(** [a <= b] on floats; false as soon as one side is NaN. *)
Definition fle (a b : pyfloat) : bool :=
  match a, b with
  | NaN, _ | _, NaN => false
  | NegInf, _ => true
  | _, PosInf => true
  | Finite p, Finite q => Qle_bool p q
  | _, _ => false
  end.

(** [a == b] on floats. *)
Definition feq (a b : pyfloat) : bool :=
  match a, b with
  | Finite p, Finite q => Qeq_bool p q
  | PosInf, PosInf => true
  | NegInf, NegInf => true
  | _, _ => false
  end.

Definition isnan (a : pyfloat) : bool :=
  match a with NaN => true | _ => false end.

(** [a + b] on floats. *)
Definition fadd (a b : pyfloat) : pyfloat :=
  match a, b with
  | NaN, _ | _, NaN => NaN
  | PosInf, NegInf | NegInf, PosInf => NaN
  | PosInf, _ | _, PosInf => PosInf
  | NegInf, _ | _, NegInf => NegInf
  | Finite p, Finite q => Finite (p + q)
  end.

(** An element of a numeric numpy array ([np.int64] or [np.float64]). *)
Inductive scalar :=
| SInt (z : Z)
| SFloat (f : pyfloat).

(** The values stored in a response dictionary. *)
Inductive pyval :=
| PyStr (s : string)
| PyInt (z : Z)
| PyFloat (f : pyfloat).

(** ** Exceptions *)

(** Classes of the exceptions that occur; all of them derive from
    [Exception].  [OtherException] stands for any other subclass of
    [Exception] (for instance [UnpicklingError] or [EOFError]) that is not
    one of the classes listed. *)
Inductive exc_class :=
| FileNotFoundError
| IndexError
| ValueError
| OverflowError
| AttributeError
| OtherException (name : string).

(** An exception instance: its class and the text [str(e)]. *)
Record exn := Exn { exn_class : exc_class; exn_str : string }.

(** The outcome of a Python call: a value, or a raised exception. *)
Inductive result (A : Type) :=
| Ok (a : A)
| Raise (e : exn).
Arguments Ok {A} a.
Arguments Raise {A} e.

Definition bindR {A B} (r : result A) (k : A -> result B) : result B :=
  match r with
  | Ok a => k a
  | Raise e => Raise e
  end.

Declare Scope result_scope.
Delimit Scope result_scope with res.
Notation "'let?' x ':=' r 'in' k" := (bindR r (fun x => k))
  (at level 10, x name, r at level 100, k at level 200) : result_scope.

(** [isinstance(e, FileNotFoundError)], the test of
    [except FileNotFoundError]. *)
Definition is_FileNotFoundError (e : exn) : bool :=
  match exn_class e with
  | FileNotFoundError => true
  | _ => false
  end.

(** ** Built-in conversions and numpy operations *)

(** [int(x)] for an array element: floats are truncated towards zero. *)
Definition py_int (x : scalar) : result Z :=
  match x with
  | SInt z => Ok z
  | SFloat (Finite q) => Ok (Z.quot (Qnum q) (Z.pos (Qden q)))
  | SFloat NaN =>
      Raise (Exn ValueError "cannot convert float NaN to integer")
  | SFloat _ =>
      Raise (Exn OverflowError "cannot convert float infinity to integer")
  end.

(** [str(n)] for an [int]. *)
Definition py_str_int (n : Z) : string := pretty n.

(** Whether a Python [int] fits numpy's index type [intp] (64 bits). *)
Definition fits_intp (i : Z) : bool :=
  (- 2 ^ 63 <=? i) && (i <? 2 ^ 63).

(** What numpy raises for an index that does not fit [intp]: an index
    in [2^63 .. 2^64 - 1] is read as an unsigned integer whose conversion
    overflows; any other is read as an object, which is not a valid
    index. *)
Definition intp_error (i : Z) : exn :=
  if (2 ^ 63 <=? i) && (i <? 2 ^ 64) then
    Exn OverflowError "Python int too large to convert to C long"
  else
    Exn IndexError
      "only integers, slices (`:`), ellipsis (`...`), numpy.newaxis (`None`) and integer or boolean arrays are valid indices".

(** The entry at an index [i] that fits [intp], along the first axis of
    an array of [length a] entries: a negative index counts from the end,
    an index outside [-n .. n-1] raises [IndexError]. *)
Definition np_take {A} (a : list A) (i : Z) : result A :=
  let n := Z.of_nat (length a) in
  let j := if i <? 0 then i + n else i in
  match (if (0 <=? j) && (j <? n) then a !! Z.to_nat j else None) with
  | Some x => Ok x
  | None =>
      Raise (Exn IndexError
               ("index " +:+ pretty i +:+
                " is out of bounds for axis 0 with size " +:+ pretty n))
  end.

(** [a[i]] for a Python [int] [i]: the index is converted to [intp],
    then looked up. *)
Definition np_getitem {A} (a : list A) (i : Z) : result A :=
  if fits_intp i then np_take a i else Raise (intp_error i).

(** One step of numpy's [maximum]: the accumulator is kept when it is at
    least the new entry or is NaN, so that NaN propagates. *)
Definition np_maximum (acc x : pyfloat) : pyfloat :=
  if fle x acc || isnan acc then acc else x.

(** [a.max()] for a two-dimensional array: the maximum over all entries;
    an array without entries raises [ValueError]. *)
Definition np_max (a : list (list pyfloat)) : result pyfloat :=
  match concat a with
  | [] =>
      Raise (Exn ValueError
               "zero-size array to reduction operation maximum which has no identity")
  | x :: xs => Ok (foldl np_maximum x xs)
  end.

(** [row.sum()]. *)
Definition np_sum (row : list pyfloat) : pyfloat :=
  foldl fadd (Finite 0) row.

(** ** Data handed to the estimators *)

(** What an estimator method receives or returns: a pandas [DataFrame]
    (rows of named cells) or a two-dimensional numpy array. *)
Inductive matrix_like :=
| DataFrame (rows : list (list (string * scalar)))
| NDArray (rows : list (list scalar)).

(** An object restored by [joblib.load].  [truthy] is [bool(obj)] (true
    for an object whose class defines neither [__bool__] nor [__len__]);
    the three methods return a value or raise.  [predict] returns a
    one-dimensional array, [predict_proba] a two-dimensional array of
    floats. *)
Record estimator := Estimator {
  truthy : bool;
  transform : matrix_like -> result matrix_like;
  predict : matrix_like -> result (list scalar);
  predict_proba : matrix_like -> result (list (list pyfloat))
}.

(** ** Metrics and the handler monad *)

(** The module-level Prometheus objects of [api/main.py].  A counter with
    one label is a map from label value to count; the histogram is the
    list of observed values, newest first (from which the bucket counts
    and the sum are determined); a gauge is its current value. *)
Record Metrics := mkMetrics {
  prediction_counter : gmap string nat;
  prediction_confidence : list pyfloat;
  prediction_errors : gmap string nat;
  active_requests : Z;
  model_load_status : Z
}.

(** Calls made to the collaborators, in program order. *)
Inductive Event :=
| PredictionCounterInc (prediction_label : string)
| PredictionConfidenceObserve (v : pyfloat)
| PredictionErrorsInc (error_type : string)
| ActiveRequestsInc
| ActiveRequestsDec
| ModelLoadStatusSet (v : Z)
| JoblibLoad (path : string)
| CallTransform
| CallPredict
| CallPredictProba.

(** A computation reads and updates the metrics, emits the events of the
    calls it makes, and returns or raises. *)
Definition M (A : Type) : Type := Metrics -> result A * Metrics * list Event.

Definition ret {A} (a : A) : M A := fun m => (Ok a, m, []).

Definition raise {A} (e : exn) : M A := fun m => (Raise e, m, []).

Definition bind {A B} (c : M A) (k : A -> M B) : M B :=
  fun m =>
    match c m with
    | (Ok a, m1, t1) =>
        match k a m1 with
        | (r, m2, t2) => (r, m2, t1 ++ t2)
        end
    | (Raise e, m1, t1) => (Raise e, m1, t1)
    end.

Declare Scope handler_scope.
Delimit Scope handler_scope with M.
Notation "x <- c ;; k" := (bind c (fun x => k))
  (at level 100, c at next level, right associativity) : handler_scope.
Notation "c ;; k" := (bind c (fun _ => k))
  (at level 100, right associativity) : handler_scope.

(** The outcome of a pure operation that may raise. *)
Definition lift {A} (r : result A) : M A := fun m => (r, m, []).

(** A call into a collaborator: it is recorded, then returns or raises. *)
Definition call {A} (ev : Event) (r : result A) : M A :=
  fun m => (r, m, [ev]).

(** [try: body / except C as e: handler e], where [catches e] tells
    whether [e] is an instance of [C].  An exception of another class
    propagates. *)
Definition try_except {A} (catches : exn -> bool)
    (body : M A) (handler : exn -> M A) : M A :=
  fun m =>
    match body m with
    | (Ok a, m1, t1) => (Ok a, m1, t1)
    | (Raise e, m1, t1) =>
        if catches e then
          match handler e m1 with
          | (r, m2, t2) => (r, m2, t1 ++ t2)
          end
        else (Raise e, m1, t1)
    end.

(** [try: body / finally: fin].  [fin] runs whether [body] returned or
    raised; the outcome of [body] is kept unless [fin] itself raises. *)
Definition try_finally {A} (body : M A) (fin : M unit) : M A :=
  fun m =>
    match body m with
    | (r, m1, t1) =>
        match fin m1 with
        | (Ok _, m2, t2) => (r, m2, t1 ++ t2)
        | (Raise e, m2, t2) => (Raise e, m2, t1 ++ t2)
        end
    end.

(** [except Exception]: every class of [exc_class] derives from
    [Exception]. *)
Definition is_Exception (e : exn) : bool := true.

(** [counter.labels(l).inc()] on the map of a labelled counter. *)
Definition labels_inc (l : string) (c : gmap string nat) : gmap string nat :=
  <[l := S (default 0%nat (c !! l))]> c.

(** The effect of a call on the metrics.  Calls to [joblib.load] and to
    the estimators leave them unchanged. *)
Definition apply_event (ev : Event) (m : Metrics) : Metrics :=
  match ev with
  | PredictionCounterInc l =>
      mkMetrics (labels_inc l (prediction_counter m)) (prediction_confidence m)
        (prediction_errors m) (active_requests m) (model_load_status m)
  | PredictionConfidenceObserve v =>
      mkMetrics (prediction_counter m) (v :: prediction_confidence m)
        (prediction_errors m) (active_requests m) (model_load_status m)
  | PredictionErrorsInc error_type =>
      mkMetrics (prediction_counter m) (prediction_confidence m)
        (labels_inc error_type (prediction_errors m)) (active_requests m)
        (model_load_status m)
  | ActiveRequestsInc =>
      mkMetrics (prediction_counter m) (prediction_confidence m)
        (prediction_errors m) (active_requests m + 1) (model_load_status m)
  | ActiveRequestsDec =>
      mkMetrics (prediction_counter m) (prediction_confidence m)
        (prediction_errors m) (active_requests m - 1) (model_load_status m)
  | ModelLoadStatusSet v =>
      mkMetrics (prediction_counter m) (prediction_confidence m)
        (prediction_errors m) (active_requests m) v
  | JoblibLoad _ | CallTransform | CallPredict | CallPredictProba => m
  end.

(** A call on a metric object: it updates the metrics, is recorded, and
    returns [None]. *)
Definition emit (ev : Event) : M unit :=
  fun m => (Ok tt, apply_event ev m, [ev]).

Definition prediction_counter_inc (l : string) : M unit :=
  emit (PredictionCounterInc l).

Definition prediction_confidence_observe (v : pyfloat) : M unit :=
  emit (PredictionConfidenceObserve v).

Definition prediction_errors_inc (error_type : string) : M unit :=
  emit (PredictionErrorsInc error_type).

Definition active_requests_inc : M unit := emit ActiveRequestsInc.

Definition active_requests_dec : M unit := emit ActiveRequestsDec.

Definition model_load_status_set (v : Z) : M unit :=
  emit (ModelLoadStatusSet v).

(** Projections of a run. *)
Definition outcome {A} (r : result A * Metrics * list Event) : result A :=
  r.1.1.
Definition final {A} (r : result A * Metrics * list Event) : Metrics :=
  r.1.2.
Definition calls {A} (r : result A * Metrics * list Event) : list Event :=
  r.2.

(** ** [api/main.py] *)

Module Api.

Local Open Scope handler_scope.

(** The validated request body. *)
Record HeartDiseaseInput := mkInput {
  age : Z;
  sex : Z;
  cp : Z;
  trestbps : Z;
  chol : Z;
  fbs : Z;
  restecg : Z;
  thalach : Z;
  exang : Z;
  oldpeak : pyfloat;
  slope : Z;
  ca : Z;
  thal : Z
}.

(** [data.dict()]: the fields in declaration order. *)
Definition dict (data : HeartDiseaseInput) : list (string * scalar) :=
  [("age", SInt (age data)); ("sex", SInt (sex data));
   ("cp", SInt (cp data)); ("trestbps", SInt (trestbps data));
   ("chol", SInt (chol data)); ("fbs", SInt (fbs data));
   ("restecg", SInt (restecg data)); ("thalach", SInt (thalach data));
   ("exang", SInt (exang data)); ("oldpeak", SFloat (oldpeak data));
   ("slope", SInt (slope data)); ("ca", SInt (ca data));
   ("thal", SInt (thal data))].

Definition preprocessor_path : string := "models/preprocessor.joblib".
Definition model_path : string :=
  "mlruns/2/models/m-d588745fcc0b4960897a74ec63ecd840/artifacts/model.pkl".

(** The module-level globals [preprocessor] and [model]; [None] is
    Python's [None]. *)
Record Artifacts := mkArtifacts {
  preprocessor : option estimator;
  model : option estimator
}.

(** The module-level [try]/[except FileNotFoundError] that loads both
    artifacts, given what [joblib.load] does for each path.  It returns
    the globals, or raises when the import of the module fails. *)
Definition load_artifacts (joblib_load : string -> result estimator)
    : M Artifacts :=
  try_except is_FileNotFoundError
    (preprocessor <- call (JoblibLoad preprocessor_path)
                       (joblib_load preprocessor_path) ;;
     model <- call (JoblibLoad model_path) (joblib_load model_path) ;;
     model_load_status_set 1 ;;
     ret (mkArtifacts (Some preprocessor) (Some model)))
    (fun e =>
       model_load_status_set 0 ;;
       ret (mkArtifacts None None)).

(** [bool(x)] for a global that is [None] or a loaded object. *)
Definition truth (x : option estimator) : bool :=
  match x with
  | None => false
  | Some obj => truthy obj
  end.

(** [x.method(arg)]; on [None] the attribute lookup raises. *)
Definition method {A B} (name : string) (f : estimator -> A -> result B)
    (x : option estimator) (arg : A) : result B :=
  match x with
  | Some obj => f obj arg
  | None =>
      Raise (Exn AttributeError
               ("'NoneType' object has no attribute '" +:+ name +:+ "'"))
  end.

(** A response dictionary. *)
Abbreviation Payload := (gmap string pyval).

Definition not_loaded_message : string :=
  "Model or preprocessor not loaded. Please check the server logs.".

(** Where a nested [try] statement leaves the handler: at a [return],
    or at its end with the value it bound. *)
Inductive flow (A : Type) :=
| Return (response : Payload)
| Next (a : A).
Arguments Return {A} response.
Arguments Next {A} a.

(** The statements of [predict] inside the outer [try]. *)
Definition predict_body (art : Artifacts) (data : HeartDiseaseInput)
    : M Payload :=
  if negb (truth (model art)) || negb (truth (preprocessor art)) then
    prediction_errors_inc "model_not_loaded" ;;
    ret {[ "error" := PyStr not_loaded_message ]}
  else
    let input_df := DataFrame [dict data] in
    step <-
      try_except is_Exception
        (processed_input <-
           call CallTransform
             (method "transform" transform (preprocessor art) input_df) ;;
         ret (Next processed_input))
        (fun e =>
           prediction_errors_inc "preprocessing_error" ;;
           ret (Return
                  {[ "error" :=
                       PyStr ("Error during data preprocessing: "
                              +:+ exn_str e) ]})) ;;
    match step with
    | Return response => ret response
    | Next processed_input =>
        try_except is_Exception
          (prediction <-
             call CallPredict
               (method "predict" predict (model art) processed_input) ;;
           prediction_proba <-
             call CallPredictProba
               (method "predict_proba" predict_proba (model art)
                  processed_input) ;;
           first <- lift (np_getitem prediction 0) ;;
           prediction_result <- lift (py_int first) ;;
           row <- lift (np_getitem prediction_proba 0) ;;
           confidence <- lift (np_getitem row prediction_result) ;;
           prediction_counter_inc (py_str_int prediction_result) ;;
           prediction_confidence_observe confidence ;;
           ret (<[ "prediction" :=
                     PyStr (if prediction_result =? 1 then "Heart Disease"
                            else "No Heart Disease") ]>
                (<[ "prediction_label" := PyInt prediction_result ]>
                 {[ "confidence" := PyFloat confidence ]})))
          (fun e =>
             prediction_errors_inc "prediction_error" ;;
             ret {[ "error" :=
                      PyStr ("Error during prediction: " +:+ exn_str e) ]})
    end.

(** Lines 95-96 and 139-140 of [predict]: the in-flight gauge is
    incremented, [body] runs inside [try], and the gauge is decremented in
    the [finally] clause. *)
Definition in_flight {A} (body : M A) : M A :=
  active_requests_inc ;;
  try_finally body active_requests_dec.

(** The handler of [POST /predict]. *)
Definition predict (art : Artifacts) (data : HeartDiseaseInput)
    : M Payload :=
  in_flight (predict_body art data).

(** Whether [json.dumps(value, allow_nan=False)], with which the
    framework encodes a response, accepts the value: a float must be
    finite. *)
Definition json_compliant (v : pyval) : bool :=
  match v with
  | PyFloat (Finite _) => true
  | PyFloat _ => false
  | PyStr _ | PyInt _ => true
  end.

(** The status of the HTTP answer for a handler outcome: 200 when the
    handler returned a dictionary that the framework can encode as JSON,
    500 when the encoding fails or the handler raised. *)
Definition status_code (r : result Payload) : Z :=
  match r with
  | Ok response =>
      if decide (map_Forall (fun _ v => json_compliant v = true) response)
      then 200
      else 500
  | Raise _ => 500
  end.

End Api.

(** ** [src/inference.py] *)

Module Inference.

Local Open Scope result_scope.

(** [predict(model, scaler, input_data)]: the prediction and its
    confidence.  [np.array(input_data).reshape(1, -1)] is the array with
    the single row [input_data]. *)
Definition predict (model scaler : estimator) (input_data : list scalar)
    : result (Z * pyfloat) :=
  let input_array := NDArray [input_data] in
  let? input_scaled := transform scaler input_array in
  let? predictions := predict model input_scaled in
  let? prediction := np_getitem predictions 0 in
  let? probabilities := predict_proba model input_scaled in
  let? confidence := np_max probabilities in
  let? label := py_int prediction in
  Ok (label, confidence).

End Inference.

(** ** Notions used in the statements *)

(** Lines 121-122 of [predict] in [api/main.py]: the look-ups that the
    handler makes in the arrays returned by [predict] and
    [predict_proba], up to the value it reports as confidence. *)
Definition confidence_lookup (prediction : list scalar)
    (probabilities : list (list pyfloat)) : result pyfloat :=
  (let? first := np_getitem prediction 0 in
   let? predicted_class_index := py_int first in
   let? row := np_getitem probabilities 0 in
   np_getitem row predicted_class_index)%res.

(** What the model stage of the pipeline computes from the processed
    input: both model calls, then the look-up of the confidence. *)
Definition model_stage (model : option estimator) (x : matrix_like)
    : result pyfloat :=
  (let? prediction := Api.method "predict" predict model x in
   let? probabilities := Api.method "predict_proba" predict_proba model x in
   confidence_lookup prediction probabilities)%res.

(** The success payload: exactly the keys [prediction],
    [prediction_label] and [confidence]. *)
Definition success_shape (p : Api.Payload) : Prop :=
  exists (text : string) (label : Z) (confidence : pyfloat),
    p = <[ "prediction" := PyStr text ]>
        (<[ "prediction_label" := PyInt label ]>
         {[ "confidence" := PyFloat confidence ]}).

(** The failure payload: only the key [error], bound to a string. *)
Definition failure_shape (p : Api.Payload) : Prop :=
  exists message : string, p = {[ "error" := PyStr message ]}.

(** A failure of one of the pipeline stages. *)
Inductive pipeline_failure (art : Api.Artifacts)
    (data : Api.HeartDiseaseInput) : Prop :=
| ModelNotLoaded :
    Api.truth (Api.model art) = false \/
    Api.truth (Api.preprocessor art) = false ->
    pipeline_failure art data
| PreprocessingError (e : exn) :
    Api.method "transform" transform (Api.preprocessor art)
      (DataFrame [Api.dict data]) = Raise e ->
    pipeline_failure art data
| InferenceError (x : matrix_like) (e : exn) :
    Api.method "transform" transform (Api.preprocessor art)
      (DataFrame [Api.dict data]) = Ok x ->
    model_stage (Api.model art) x = Raise e ->
    pipeline_failure art data.

(** Operations on the in-flight gauge. *)
Definition is_active_requests_event (ev : Event) : bool :=
  match ev with
  | ActiveRequestsInc | ActiveRequestsDec => true
  | _ => false
  end.

(** Updates of the prediction counter and of the confidence histogram. *)
Definition is_prediction_metric_event (ev : Event) : bool :=
  match ev with
  | PredictionCounterInc _ | PredictionConfidenceObserve _ => true
  | _ => false
  end.

(** Calls into the preprocessor or the model. *)
Definition is_estimator_call (ev : Event) : bool :=
  match ev with
  | CallTransform | CallPredict | CallPredictProba => true
  | _ => false
  end.

(** The metrics after a sequence of calls. *)
Definition apply_events (t : list Event) (m : Metrics) : Metrics :=
  foldl (fun acc ev => apply_event ev acc) m t.

(** Both artifacts pass the test of line 99. *)
Definition loaded (art : Api.Artifacts) : Prop :=
  Api.truth (Api.model art) = true /\ Api.truth (Api.preprocessor art) = true.

(** The runs of the statements inside the outer [try] of [predict]: the
    response returned and the calls made, by the stage at which the
    pipeline ends. *)
Inductive body_run (art : Api.Artifacts) (data : Api.HeartDiseaseInput)
    : result Api.Payload -> list Event -> Prop :=
| run_not_loaded :
    Api.truth (Api.model art) = false \/
    Api.truth (Api.preprocessor art) = false ->
    body_run art data
      (Ok {[ "error" := PyStr Api.not_loaded_message ]})
      [PredictionErrorsInc "model_not_loaded"]
| run_preprocessing_error e :
    loaded art ->
    Api.method "transform" transform (Api.preprocessor art)
      (DataFrame [Api.dict data]) = Raise e ->
    body_run art data
      (Ok {[ "error" :=
               PyStr ("Error during data preprocessing: " +:+ exn_str e) ]})
      [CallTransform; PredictionErrorsInc "preprocessing_error"]
| run_predict_error x e :
    loaded art ->
    Api.method "transform" transform (Api.preprocessor art)
      (DataFrame [Api.dict data]) = Ok x ->
    Api.method "predict" predict (Api.model art) x = Raise e ->
    body_run art data
      (Ok {[ "error" := PyStr ("Error during prediction: " +:+ exn_str e) ]})
      [CallTransform; CallPredict; PredictionErrorsInc "prediction_error"]
| run_confidence_error x prediction e :
    loaded art ->
    Api.method "transform" transform (Api.preprocessor art)
      (DataFrame [Api.dict data]) = Ok x ->
    Api.method "predict" predict (Api.model art) x = Ok prediction ->
    bindR (Api.method "predict_proba" predict_proba (Api.model art) x)
      (confidence_lookup prediction) = Raise e ->
    body_run art data
      (Ok {[ "error" := PyStr ("Error during prediction: " +:+ exn_str e) ]})
      [CallTransform; CallPredict; CallPredictProba;
       PredictionErrorsInc "prediction_error"]
| run_success x prediction probabilities first label confidence :
    loaded art ->
    Api.method "transform" transform (Api.preprocessor art)
      (DataFrame [Api.dict data]) = Ok x ->
    Api.method "predict" predict (Api.model art) x = Ok prediction ->
    Api.method "predict_proba" predict_proba (Api.model art) x
      = Ok probabilities ->
    np_getitem prediction 0 = Ok first ->
    py_int first = Ok label ->
    confidence_lookup prediction probabilities = Ok confidence ->
    body_run art data
      (Ok (<[ "prediction" :=
                PyStr (if label =? 1 then "Heart Disease"
                       else "No Heart Disease") ]>
           (<[ "prediction_label" := PyInt label ]>
            {[ "confidence" := PyFloat confidence ]})))
      [CallTransform; CallPredict; CallPredictProba;
       PredictionCounterInc (py_str_int label);
       PredictionConfidenceObserve confidence].

(** The calls of a whole request around those of its body. *)
Definition request_calls (t : list Event) : list Event :=
  ActiveRequestsInc :: t ++ [ActiveRequestsDec].

(** The label and the text of a response agree in both directions:
    label 1 with "Heart Disease" and label 0 with "No Heart Disease". *)
Definition label_matches_text (p : Api.Payload) : Prop :=
  (p !! "prediction_label" = Some (PyInt 1) <->
   p !! "prediction" = Some (PyStr "Heart Disease")) /\
  (p !! "prediction_label" = Some (PyInt 0) <->
   p !! "prediction" = Some (PyStr "No Heart Disease")).

(** Loading the artifacts fails with [e]: the first [joblib.load] raises
    it, or the first succeeds and the second raises it. *)
Definition load_failure (joblib_load : string -> result estimator)
    (e : exn) : Prop :=
  joblib_load Api.preprocessor_path = Raise e \/
  (exists pre, joblib_load Api.preprocessor_path = Ok pre /\
               joblib_load Api.model_path = Raise e).

(** The service starts without artifacts: the loader returns with both
    globals [None], its last call sets the readiness gauge to 0, and the
    gauge reads 0. *)
Definition degraded_start (joblib_load : string -> result estimator)
    (m : Metrics) : Prop :=
  outcome (Api.load_artifacts joblib_load m)
    = Ok (Api.mkArtifacts None None) /\
  last (calls (Api.load_artifacts joblib_load m))
    = Some (ModelLoadStatusSet 0) /\
  model_load_status (final (Api.load_artifacts joblib_load m)) = 0.

(** [k] is the index of a largest entry of [row]. *)
Definition is_argmax (row : list pyfloat) (k : Z) : bool :=
  match (if 0 <=? k then row !! Z.to_nat k else None) with
  | Some c => forallb (fun v => fle v c) row
  | None => false
  end.

(** [int(prediction[0])], the predicted class. *)
Definition predicted_class (prediction : list scalar) : result Z :=
  (let? first := np_getitem prediction 0 in py_int first)%res.

(** A fitted scikit-learn classifier: the estimator together with its
    attribute [classes_], the class labels in the order of the columns of
    [predict_proba]. *)
Record classifier := Classifier {
  fitted : estimator;
  classes_ : list Z
}.

(** The probability that a row of [predict_proba] assigns to the class
    [c]: the entry in the column of [c]. *)
Definition class_probability (classes : list Z) (row : list pyfloat)
    (c : Z) : option pyfloat :=
  match list_find (fun label => label = c) classes with
  | Some (column, _) => row !! column
  | None => None
  end.

(** The confidence of a response is the probability that [row], a row of
    the classifier's [predict_proba], assigns to the class that the
    response reports. *)
Definition confidence_is_class_probability (clf : classifier)
    (row : list pyfloat) (p : Api.Payload) : Prop :=
  exists label c,
    p !! "prediction_label" = Some (PyInt label) /\
    p !! "confidence" = Some (PyFloat c) /\
    class_probability (classes_ clf) row label = Some c.

(** ** Sample inputs *)

(** The request of the example in the specification. *)
Definition sample_request : Api.HeartDiseaseInput :=
  Api.mkInput 63 1 3 145 233 1 0 150 0 (Finite (23 # 10)) 0 0 1.

(** Metrics of a process that has already served requests. *)
Definition sample_metrics : Metrics :=
  mkMetrics {[ "1" := 3%nat ]} [Finite (9 # 10)]
    {[ "model_not_loaded" := 2%nat ]} 4 1.

(** The metrics of a process that has just been started. *)
Definition fresh_metrics : Metrics := mkMetrics ∅ [] ∅ 0 0.

(** A preprocessor that returns the single row of the frame as an
    array. *)
Definition sample_preprocessor : estimator :=
  Estimator true
    (fun x =>
       match x with
       | DataFrame rows => Ok (NDArray (map (map snd) rows))
       | NDArray rows => Ok (NDArray rows)
       end)
    (fun _ => Raise (Exn AttributeError
                       "'StandardScaler' object has no attribute 'predict'"))
    (fun _ => Raise (Exn AttributeError
                       "'StandardScaler' object has no attribute 'predict_proba'")).

(** A preprocessor fitted on another schema: [transform] raises. *)
Definition mismatched_preprocessor : estimator :=
  Estimator true
    (fun _ =>
       Raise (Exn ValueError
                "X has 13 features, but StandardScaler is expecting 12 features as input."))
    (fun _ => Raise (Exn AttributeError
                       "'StandardScaler' object has no attribute 'predict'"))
    (fun _ => Raise (Exn AttributeError
                       "'StandardScaler' object has no attribute 'predict_proba'")).

(** A classifier that answers every row with class [label] and the
    probability row [row]. *)
Definition constant_model (label : Z) (row : list pyfloat) : estimator :=
  Estimator true
    (fun _ => Raise (Exn AttributeError
                       "'LogisticRegression' object has no attribute 'transform'"))
    (fun _ => Ok [SInt label])
    (fun _ => Ok [row]).

(** A binary classifier that predicts class 1 with probability 0.7. *)
Definition binary_model : estimator :=
  constant_model 1 [Finite (3 # 10); Finite (7 # 10)].

(** A classifier over the five classes 0..4 that predicts class 2. *)
Definition five_class_model : estimator :=
  constant_model 2
    [Finite (1 # 10); Finite (1 # 10); Finite (6 # 10); Finite (1 # 10);
     Finite (1 # 10)].

(** [binary_model] with its class labels 0 and 1. *)
Definition binary_classifier : classifier :=
  Classifier binary_model [0; 1].

(** A binary classifier trained on the labels -1 and 1 that predicts
    class -1 with probability 0.8. *)
Definition sign_classifier : classifier :=
  Classifier (constant_model (-1) [Finite (8 # 10); Finite (2 # 10)])
    [-1; 1].

Definition sample_artifacts : Api.Artifacts :=
  Api.mkArtifacts (Some sample_preprocessor) (Some binary_model).

(** The features of [sample_request] as a plain list, for
    [Inference.predict]. *)
Definition sample_features : list scalar := map snd (Api.dict sample_request).

(** [joblib.load] when neither file exists. *)
Definition files_missing (path : string) : result estimator :=
  Raise (Exn FileNotFoundError
           ("[Errno 2] No such file or directory: '" +:+ path +:+ "'")).

(** [joblib.load] when the preprocessor file exists but does not hold a
    pickle. *)
Definition preprocessor_corrupt (path : string) : result estimator :=
  if String.eqb path Api.preprocessor_path then
    Raise (Exn (OtherException "UnpicklingError") "invalid load key, 'x'.")
  else Ok binary_model.

(** ** Notions used in the further properties *)

(** Increments of either counter. *)
Definition is_counter_event (ev : Event) : bool :=
  match ev with
  | PredictionCounterInc _ | PredictionErrorsInc _ => true
  | _ => false
  end.

(** Calls that only the module-level loader makes. *)
Definition is_startup_event (ev : Event) : bool :=
  match ev with
  | ModelLoadStatusSet _ | JoblibLoad _ => true
  | _ => false
  end.

(** The error types the handler records. *)
Definition error_types : list string :=
  ["model_not_loaded"; "preprocessing_error"; "prediction_error"].

(** The sum of a labelled counter over all its label values. *)
Definition counter_total (c : gmap string nat) : nat :=
  map_fold (fun _ v acc => (v + acc)%nat) 0%nat c.

(** The count of a labelled counter at one label value; a label never
    incremented counts 0. *)
Definition counter_at (l : string) (c : gmap string nat) : nat :=
  default 0%nat (c !! l).

(** The metrics after the handler has served the requests one after the
    other. *)
Definition serve_all (art : Api.Artifacts)
    (requests : list Api.HeartDiseaseInput) (m : Metrics) : Metrics :=
  foldl (fun acc data => final (Api.predict art data acc)) m requests.

(** [0 <= v <= 1]. *)
Definition in_unit_interval (v : pyfloat) : bool :=
  fle (Finite 0) v && fle v (Finite 1).

(** [-n <= i < n] for an array of [n] entries. *)
Definition valid_index (n : nat) (i : Z) : Prop :=
  - Z.of_nat n <= i < Z.of_nat n.

#[global] Instance valid_index_dec n i : Decision (valid_index n i).
Proof. unfold valid_index. apply _. Defined.

(** What numpy raises for [a[0]] on an array without entries. *)
Definition index_0_error : exn :=
  Exn IndexError "index 0 is out of bounds for axis 0 with size 0".

(** A failure with [e] between the call of [predict_proba] and the last
    look-up of line 122: [predict_proba] raises [e], or the prediction
    array is empty, or [int] rejects its first entry, or the probability
    array has no row. *)
Inductive early_confidence_failure (prediction : list scalar)
    (proba : result (list (list pyfloat))) : exn -> Prop :=
| proba_raises e :
    proba = Raise e ->
    early_confidence_failure prediction proba e
| prediction_empty probabilities :
    proba = Ok probabilities ->
    prediction = [] ->
    early_confidence_failure prediction proba index_0_error
| prediction_not_int probabilities first rest e :
    proba = Ok probabilities ->
    prediction = first :: rest ->
    py_int first = Raise e ->
    early_confidence_failure prediction proba e
| probabilities_empty first rest label :
    proba = Ok [] ->
    prediction = first :: rest ->
    py_int first = Ok label ->
    early_confidence_failure prediction proba index_0_error.

(** A classifier whose prediction is NaN. *)
Definition nan_prediction_model : estimator :=
  Estimator true
    (fun _ => Raise (Exn AttributeError
                       "'LogisticRegression' object has no attribute 'transform'"))
    (fun _ => Ok [SFloat NaN])
    (fun _ => Ok [[Finite (3 # 10); Finite (7 # 10)]]).

(** A classifier whose [predict] raises. *)
Definition unfitted_model : estimator :=
  Estimator true
    (fun _ => Raise (Exn AttributeError
                       "'LogisticRegression' object has no attribute 'transform'"))
    (fun _ => Raise (Exn (OtherException "NotFittedError")
                       "This LogisticRegression instance is not fitted yet."))
    (fun _ => Raise (Exn (OtherException "NotFittedError")
                       "This LogisticRegression instance is not fitted yet.")).

(** A binary classifier trained on the labels 1 and 2 that predicts 2. *)
Definition shifted_label_model : estimator :=
  constant_model 2 [Finite (3 # 10); Finite (7 # 10)].

(** [joblib.load] when both files hold the sample artifacts. *)
Definition files_present (path : string) : result estimator :=
  if String.eqb path Api.preprocessor_path then Ok sample_preprocessor
  else Ok binary_model.

(** ** Basic facts *)

Example np_getitem_last : np_getitem [10; 20; 30] (-1) = Ok 30.
Proof. reflexivity. Qed.

Example np_getitem_out :
  np_getitem [10; 20] 2 =
  Raise (Exn IndexError "index 2 is out of bounds for axis 0 with size 2").
Proof. reflexivity. Qed.

Example np_getitem_unsigned :
  np_getitem [10; 20] (2 ^ 63) =
  Raise (Exn OverflowError "Python int too large to convert to C long").
Proof. reflexivity. Qed.

Example np_getitem_object :
  exn_class (intp_error (2 ^ 70)) = IndexError /\
  exn_class (intp_error (- 2 ^ 63 - 1)) = IndexError.
Proof. split; reflexivity. Qed.

(** A success payload whose confidence is NaN cannot be encoded: the
    answer has status 500. *)
Example status_code_nan_confidence :
  Api.status_code
    (outcome
       (Api.predict
          (Api.mkArtifacts (Some sample_preprocessor)
             (Some (constant_model 1 [Finite (3 # 10); NaN])))
          sample_request sample_metrics)) = 500.
Proof. vm_compute. reflexivity. Qed.

Example py_int_trunc : py_int (SFloat (Finite (-7 # 2))) = Ok (-3).
Proof. reflexivity. Qed.

Lemma np_take_valid {A} (a : list A) (i : Z) :
  valid_index (length a) i ->
  exists x,
    a !! Z.to_nat (i mod Z.of_nat (length a)) = Some x /\
    np_take a i = Ok x.
Proof.
  unfold valid_index, np_take. intros Hi.
  set (n := Z.of_nat (length a)) in *.
  set (j := if i <? 0 then i + n else i).
  assert (Hj : 0 <= j < n) by (unfold j; destruct (i <? 0) eqn:?; lia).
  assert (Hmod : i mod n = j).
  { unfold j. destruct (i <? 0) eqn:?.
    - symmetry. apply Z.mod_unique with (-1); lia.
    - apply Z.mod_small. lia. }
  assert (((0 <=? j) && (j <? n)) = true) as -> by lia.
  rewrite Hmod.
  destruct (lookup_lt_is_Some_2 a (Z.to_nat j)) as [x Hx]; [lia|].
  exists x. by rewrite Hx.
Qed.

Lemma np_take_invalid {A} (a : list A) (i : Z) :
  ~ valid_index (length a) i ->
  np_take a i =
  Raise (Exn IndexError
           ("index " +:+ pretty i +:+
            " is out of bounds for axis 0 with size " +:+
            pretty (Z.of_nat (length a)))).
Proof.
  unfold valid_index, np_take. intros Hi.
  set (n := Z.of_nat (length a)) in *.
  destruct (i <? 0) eqn:Hneg.
  - assert (((0 <=? i + n) && (i + n <? n)) = false) as -> by lia. done.
  - assert (((0 <=? i) && (i <? n)) = false) as -> by lia. done.
Qed.

(** When [a[i]] returns: the index fits, lies in [-n .. n-1], and the
    value is the entry at [i mod n]. *)
Lemma np_getitem_Ok {A} (a : list A) (i : Z) (x : A) :
  np_getitem a i = Ok x <->
  fits_intp i = true /\ valid_index (length a) i /\
  a !! Z.to_nat (i mod Z.of_nat (length a)) = Some x.
Proof.
  unfold np_getitem. destruct (fits_intp i) eqn:Hfit.
  - destruct (decide (valid_index (length a) i)) as [Hv|Hv].
    + destruct (np_take_valid a i Hv) as (y & Hy & ->). rewrite Hy.
      split; [intros [= ->]; done|]. by intros (_ & _ & [= ->]).
    + rewrite (np_take_invalid a i Hv). split; [done|]. by intros (_ & ? & _).
  - split; [done|]. by intros (? & _).
Qed.

Lemma np_getitem_valid {A} (a : list A) (i : Z) :
  fits_intp i = true ->
  valid_index (length a) i ->
  exists x,
    a !! Z.to_nat (i mod Z.of_nat (length a)) = Some x /\
    np_getitem a i = Ok x.
Proof.
  intros Hfit Hv. destruct (np_take_valid a i Hv) as (x & Hx & Ht).
  exists x. split; [done|]. by apply np_getitem_Ok.
Qed.

Lemma np_getitem_invalid {A} (a : list A) (i : Z) :
  fits_intp i = true ->
  ~ valid_index (length a) i ->
  np_getitem a i =
  Raise (Exn IndexError
           ("index " +:+ pretty i +:+
            " is out of bounds for axis 0 with size " +:+
            pretty (Z.of_nat (length a)))).
Proof.
  intros Hfit Hv. unfold np_getitem. rewrite Hfit. by apply np_take_invalid.
Qed.

Lemma np_getitem_unfit {A} (a : list A) (i : Z) :
  fits_intp i = false -> np_getitem a i = Raise (intp_error i).
Proof. intros Hfit. unfold np_getitem. by rewrite Hfit. Qed.

(** An index that is not valid makes [a[i]] raise. *)
Lemma np_getitem_raises {A} (a : list A) (i : Z) :
  ~ valid_index (length a) i -> exists e, np_getitem a i = Raise e.
Proof.
  intros Hv. destruct (fits_intp i) eqn:Hfit.
  - eexists. by apply np_getitem_invalid.
  - eexists. by apply np_getitem_unfit.
Qed.

Lemma np_getitem_elem {A} (a : list A) (i : Z) (x : A) :
  np_getitem a i = Ok x -> x ∈ a.
Proof.
  intros (_ & _ & Hx)%np_getitem_Ok. by eapply list_elem_of_lookup_2.
Qed.

Lemma np_getitem_first {A} (a : list A) (x : A) :
  np_getitem a 0 = Ok x -> a !! 0%nat = Some x.
Proof.
  intros (_ & _ & Hx)%np_getitem_Ok.
  by rewrite Zmod_0_l in Hx.
Qed.

Ltac unfold_handler :=
  unfold Api.predict, Api.in_flight, Api.predict_body, Api.load_artifacts,
    outcome, final, calls, bind, try_except, try_finally, call, lift, ret,
    is_Exception, prediction_errors_inc, prediction_counter_inc,
    prediction_confidence_observe, active_requests_inc, active_requests_dec,
    model_load_status_set, emit in *.

Lemma success_not_failure (p : Api.Payload) :
  success_shape p -> ~ failure_shape p.
Proof.
  intros (text & label & c & ->) (msg & H).
  apply (f_equal (fun q : gmap string pyval => q !! "error")) in H.
  by simplify_map_eq.
Qed.

Lemma not_loaded_cases (a b : bool) :
  negb a || negb b = true -> a = false \/ b = false.
Proof. destruct a, b; auto. Qed.

Lemma loaded_cases (a b : bool) :
  negb a || negb b = false -> a = true /\ b = true.
Proof. by destruct a, b. Qed.

(** The body of [predict] follows one of the runs of [body_run], and the
    response and the calls do not depend on the metrics. *)
Lemma predict_body_spec art data :
  exists o t,
    body_run art data o t /\
    forall m, Api.predict_body art data m = (o, apply_events t m, t).
Proof.
  unfold Api.predict_body.
  destruct (negb (Api.truth (Api.model art)) ||
            negb (Api.truth (Api.preprocessor art))) eqn:Hl.
  { apply not_loaded_cases in Hl.
    eexists _, _. split; [by apply run_not_loaded|]. done. }
  apply loaded_cases in Hl.
  destruct (Api.method "transform" transform (Api.preprocessor art)
              (DataFrame [Api.dict data])) as [x|e] eqn:Ht.
  2:{ eexists _, _. split; [by eapply run_preprocessing_error|]. done. }
  destruct (Api.method "predict" predict (Api.model art) x)
    as [prediction|e] eqn:Hp.
  2:{ eexists _, _. split; [by eapply run_predict_error|].
      intros m. unfold_handler. simpl. by rewrite Hp. }
  destruct (bindR (Api.method "predict_proba" predict_proba (Api.model art) x)
              (confidence_lookup prediction)) as [c|e] eqn:Hc.
  2:{ eexists _, _. split; [by eapply run_confidence_error|].
      intros m. unfold_handler. simpl. rewrite Hp; simpl.
      unfold confidence_lookup, bindR in Hc.
      destruct (Api.method "predict_proba" _ _ _); simpl; [|by simplify_eq].
      destruct (np_getitem prediction 0); simpl; [|by simplify_eq].
      destruct (py_int _); simpl; [|by simplify_eq].
      destruct (np_getitem _ 0); simpl; [|by simplify_eq].
      destruct (np_getitem _ _); simpl; by simplify_eq. }
  unfold bindR in Hc.
  destruct (Api.method "predict_proba" _ _ _) as [probabilities|] eqn:Hpp;
    [|done].
  pose proof Hc as Hc'. unfold confidence_lookup, bindR in Hc'.
  destruct (np_getitem prediction 0) as [first|] eqn:Hf; [|done].
  destruct (py_int first) as [label|] eqn:Hi; [|done].
  destruct (np_getitem probabilities 0) as [row|] eqn:Hr; [|done].
  eexists _, _. split; [by eapply run_success|].
  intros m. unfold_handler. simpl. rewrite Hp, Hpp; simpl.
  rewrite Hf; simpl. rewrite Hi; simpl. rewrite Hr; simpl. rewrite Hc'.
  done.
Qed.

(** The gauge scope around any body: the increment comes first, the
    decrement last, and the outcome is that of the body, whether it
    returned or raised. *)
Lemma in_flight_run {A} (body : M A) (m : Metrics) :
  Api.in_flight body m =
  (outcome (body (apply_event ActiveRequestsInc m)),
   apply_event ActiveRequestsDec
     (final (body (apply_event ActiveRequestsInc m))),
   request_calls (calls (body (apply_event ActiveRequestsInc m)))).
Proof.
  unfold_handler. unfold request_calls.
  destruct (body (apply_event ActiveRequestsInc m)) as [[[a|e] m1] t]; done.
Qed.

Lemma apply_events_app t1 t2 m :
  apply_events (t1 ++ t2) m = apply_events t2 (apply_events t1 m).
Proof. apply foldl_app. Qed.

(** The handler follows one of the runs of [body_run] between the two
    gauge operations. *)
Lemma predict_spec art data :
  exists o t,
    body_run art data o t /\
    forall m,
      Api.predict art data m =
      (o, apply_events (request_calls t) m, request_calls t).
Proof.
  destruct (predict_body_spec art data) as (o & t & Hrun & Hbody).
  exists o, t. split; [done|]. intros m.
  unfold Api.predict. rewrite in_flight_run, Hbody.
  unfold outcome, final, calls, request_calls; simpl.
  by rewrite apply_events_app.
Qed.

Lemma failure_not_success (p : Api.Payload) :
  failure_shape p -> ~ success_shape p.
Proof. intros Hf Hs. by apply (success_not_failure p). Qed.

Lemma body_run_response art data o t :
  body_run art data o t ->
  exists p : Api.Payload,
    o = Ok p /\
    (success_shape p /\ ~ pipeline_failure art data \/
     failure_shape p /\ pipeline_failure art data).
Proof.
  assert (Hfail : forall msg : string,
             failure_shape ({[ "error" := PyStr msg ]})) by (by eexists).
  destruct 1 as [Hl|e Hl Ht|x e Hl Ht Hp|x pr e Hl Ht Hp Hc
                 |x pr pp first label c Hl Ht Hp Hpp Hf Hi Hc];
    (eexists; split; [done|]).
  - right. split; [done|]. by apply ModelNotLoaded.
  - right. split; [done|]. by eapply PreprocessingError.
  - right. split; [done|]. eapply InferenceError; [done|].
    unfold model_stage. by rewrite Hp.
  - right. split; [done|]. eapply InferenceError; [done|].
    unfold model_stage. by rewrite Hp.
  - left. split; [by eexists _, _, _|].
    destruct Hl as [Hm Hpre].
    intros [[H|H]|e H|x' e H Hs]; [congruence..|].
    rewrite Ht in H. injection H as <-.
    unfold model_stage in Hs. rewrite Hp, Hpp in Hs. simpl in Hs. congruence.
Qed.

(** ** The claims *)

Lemma class_probability_column (classes : list Z) (row : list pyfloat)
    (column : nat) (c : Z) :
  NoDup classes ->
  classes !! column = Some c ->
  class_probability classes row c = row !! column.
Proof.
  intros Hnd Hc. unfold class_probability.
  assert (Hfind : list_find (fun label => label = c) classes
                  = Some (column, c)).
  { apply list_find_Some. split; [done|]. split; [done|].
    intros j y Hy Hlt ->.
    pose proof (NoDup_lookup _ _ _ _ Hnd Hy Hc). lia. }
  by rewrite Hfind.
Qed.

(** C1, as stated, fails: a binary classifier with the classes -1 and 1
    predicts class -1, to which it assigns probability 0.8; both model
    calls succeed, and the response carries confidence 0.2, the
    probability of the other class. *)
Lemma confidence_is_class_probability_counterexample :
  exists (x : matrix_like) (p : Api.Payload),
    predict (fitted sign_classifier) x = Ok [SInt (-1)] /\
    predict_proba (fitted sign_classifier) x
      = Ok [[Finite (8 # 10); Finite (2 # 10)]] /\
    outcome
      (Api.predict
         (Api.mkArtifacts (Some sample_preprocessor)
            (Some (fitted sign_classifier)))
         sample_request sample_metrics) = Ok p /\
    p !! "prediction_label" = Some (PyInt (-1)) /\
    p !! "confidence" = Some (PyFloat (Finite (2 # 10))) /\
    class_probability (classes_ sign_classifier)
      [Finite (8 # 10); Finite (2 # 10)] (-1) = Some (Finite (8 # 10)) /\
    ~ confidence_is_class_probability sign_classifier
        [Finite (8 # 10); Finite (2 # 10)] p.
Proof.
  exists (NDArray [sample_features]). eexists.
  split; [reflexivity|]. split; [reflexivity|]. split; [reflexivity|].
  split; [reflexivity|]. split; [reflexivity|]. split; [reflexivity|].
  intros (label & c & Hl & Hc & Hp).
  vm_compute in Hl. injection Hl as <-.
  vm_compute in Hc. injection Hc as <-.
  vm_compute in Hp. discriminate.
Qed.

(** C1, amended: when the artifacts are loaded and [transform],
    [predict] and [predict_proba] succeed on a request, the confidence of
    the response is the entry of the first row of [predict_proba] at the
    index [int(prediction[0])], read as numpy does (an index in
    [-n .. n-1], a negative one counting from the end).  It is the
    probability that the model assigns to the predicted class whenever
    that index is the column of the predicted class, in particular when
    the class labels of the model are the column indices 0, 1, ... *)
Theorem confidence_is_entry_at_label
    art data m pre clf x prediction probabilities :
  Api.preprocessor art = Some pre ->
  Api.model art = Some (fitted clf) ->
  truthy pre = true ->
  truthy (fitted clf) = true ->
  transform pre (DataFrame [Api.dict data]) = Ok x ->
  predict (fitted clf) x = Ok prediction ->
  predict_proba (fitted clf) x = Ok probabilities ->
  forall (p : Api.Payload) (c : pyfloat),
    outcome (Api.predict art data m) = Ok p ->
    p !! "confidence" = Some (PyFloat c) ->
    exists first label row,
      prediction !! 0%nat = Some first /\
      py_int first = Ok label /\
      p !! "prediction_label" = Some (PyInt label) /\
      probabilities !! 0%nat = Some row /\
      valid_index (length row) label /\
      row !! Z.to_nat (label mod Z.of_nat (length row)) = Some c /\
      (NoDup (classes_ clf) ->
       classes_ clf !! Z.to_nat (label mod Z.of_nat (length row))
         = Some label ->
       confidence_is_class_probability clf row p) /\
      (classes_ clf = seqZ 0 (Z.of_nat (length row)) ->
       label ∈ classes_ clf ->
       confidence_is_class_probability clf row p).
Proof.
  intros Hpre Hmo Tpre Tmo Ht Hp Hpp p c.
  destruct (predict_spec art data) as (o & t & Hrun & Heq). rewrite Heq.
  unfold outcome; simpl. intros -> Hconf.
  inversion Hrun as [Hl Hq|e Hl Ht' Hq|x' e Hl Ht' Hpr Hq
                     |x' pr e Hl Ht' Hpr Hc Hq
                     |x' pr pp first label c' Hl Ht' Hpr Hpp' Hf Hi Hc Hq];
    subst; try by simplify_map_eq.
  simplify_map_eq.
  rewrite Hpre, Hmo in *; simpl in *.
  assert (x' = x) as -> by congruence.
  assert (pr = prediction) as -> by congruence.
  assert (pp = probabilities) as -> by congruence.
  unfold confidence_lookup, bindR in Hc. rewrite Hf, Hi in Hc.
  destruct (np_getitem probabilities 0) as [row|] eqn:Hrow; [|done].
  apply np_getitem_first in Hf, Hrow.
  apply np_getitem_Ok in Hc as (_ & Hvalid & Hentry).
  assert (Hcol : NoDup (classes_ clf) ->
                 classes_ clf !! Z.to_nat (label mod Z.of_nat (length row))
                   = Some label ->
                 confidence_is_class_probability clf row
                   (<[ "prediction" :=
                         PyStr (if label =? 1 then "Heart Disease"
                                else "No Heart Disease") ]>
                    (<[ "prediction_label" := PyInt label ]>
                     {[ "confidence" := PyFloat c ]}))).
  { intros Hnd Hlabel. exists label, c.
    split; [by simplify_map_eq|]. split; [by simplify_map_eq|].
    by rewrite (class_probability_column _ _ _ _ Hnd Hlabel). }
  exists first, label, row.
  split; [done|]. split; [done|]. split; [by simplify_map_eq|].
  split; [done|]. split; [done|]. split; [done|]. split; [exact Hcol|].
  intros Hclasses Hin. apply Hcol.
  - rewrite Hclasses. apply NoDup_seqZ.
  - rewrite Hclasses in Hin |- *. apply elem_of_seqZ in Hin.
    rewrite Z.mod_small by lia.
    apply lookup_seqZ. lia.
Qed.

Lemma confidence_is_entry_at_label_witness :
  confidence_is_class_probability binary_classifier
    [Finite (3 # 10); Finite (7 # 10)]
    (<[ "prediction" := PyStr "Heart Disease" ]>
       (<[ "prediction_label" := PyInt 1 ]>
          {[ "confidence" := PyFloat (Finite (7 # 10)) ]})).
Proof.
  destruct (confidence_is_entry_at_label sample_artifacts sample_request
              sample_metrics sample_preprocessor binary_classifier _ _ _
              eq_refl eq_refl eq_refl eq_refl eq_refl eq_refl eq_refl
              _ (Finite (7 # 10)) eq_refl eq_refl)
    as (first & label & row & Hf & Hi & Hl & Hrow & _ & _ & _ & Hclass).
  injection Hrow as <-. vm_compute in Hl. injection Hl as <-.
  apply Hclass; [reflexivity|]. by apply list_elem_of_In; right; left.
Defined.

Lemma status_code_failure (p : Api.Payload) :
  failure_shape p -> Api.status_code (Ok p) = 200.
Proof.
  intros (msg & ->). unfold Api.status_code.
  case_decide as H; [done|]. destruct H.
  by apply map_Forall_singleton.
Qed.

Lemma status_code_success (text : string) (label : Z) (c : pyfloat) :
  Api.status_code
    (Ok (<[ "prediction" := PyStr text ]>
         (<[ "prediction_label" := PyInt label ]>
          {[ "confidence" := PyFloat c ]})))
  = 200
  <-> exists q, c = Finite q.
Proof.
  unfold Api.status_code. case_decide as H.
  - split; [intros _|done].
    specialize (H "confidence" (PyFloat c)). simpl in H.
    destruct c as [q| | |]; try (by discriminate H; simplify_map_eq).
    by exists q.
  - split; [done|]. intros [q ->]. destruct H.
    repeat (apply map_Forall_insert_2; [done|]).
    by apply map_Forall_empty.
Qed.

(** C2: for every request, whatever the artifacts and the metrics, the
    handler returns a dictionary that has exactly one of the two shapes:
    the success payload with the keys [prediction], [prediction_label]
    and [confidence], or the failure payload with the single key [error];
    it is the failure payload exactly when a pipeline stage failed, and
    every such failure is answered with status 200.  (A success payload
    is answered with status 200 exactly when its confidence is a finite
    float.) *)
Theorem predict_returns_one_shape art data m :
  exists p : Api.Payload,
    outcome (Api.predict art data m) = Ok p /\
    (success_shape p /\ ~ failure_shape p /\ p !! "error" = None \/
     failure_shape p /\ ~ success_shape p /\
       p !! "prediction" = None /\ p !! "prediction_label" = None /\
       p !! "confidence" = None) /\
    (pipeline_failure art data <-> failure_shape p) /\
    (pipeline_failure art data ->
     Api.status_code (outcome (Api.predict art data m)) = 200) /\
    (Api.status_code (outcome (Api.predict art data m)) = 200 <->
     failure_shape p \/
     exists q, p !! "confidence" = Some (PyFloat (Finite q))).
Proof.
  destruct (predict_spec art data) as (o & t & Hrun & Heq).
  rewrite Heq. unfold outcome; simpl.
  destruct (body_run_response art data o t Hrun) as (p & -> & Hshape).
  exists p. split; [done|].
  destruct Hshape as [[Hs Hnf]|[Hf Hpf]].
  - pose proof (success_not_failure p Hs) as Hn. split; [|split; [|split]].
    + left. split; [done|]. split; [done|].
      destruct Hs as (text & label & c & ->). by simplify_map_eq.
    + split; [done|]. intros Hf. by destruct Hn.
    + done.
    + destruct Hs as (text & label & c & ->).
      rewrite status_code_success. split.
      * intros [q ->]. right. exists q. by simplify_map_eq.
      * intros [Hf|[q Hq]]; [by destruct Hn|].
        exists q. simplify_map_eq. done.
  - split; [|split; [|split]].
    + right. split; [done|]. split; [by apply failure_not_success|].
      destruct Hf as (msg & ->). by simplify_map_eq.
    + done.
    + intros _. by apply status_code_failure.
    + split; [by left|]. intros _. by apply status_code_failure.
Qed.

Lemma body_run_gauge_free art data o t :
  body_run art data o t -> List.filter is_active_requests_event t = [].
Proof. by destruct 1. Qed.

Lemma apply_events_gauge_free t m :
  List.filter is_active_requests_event t = [] ->
  active_requests (apply_events t m) = active_requests m.
Proof.
  revert m. induction t as [|ev t IH]; intros m Ht; [done|].
  unfold apply_events in *. simpl in *.
  destruct ev; simpl in *; try done; by rewrite IH.
Qed.

(** C3: over a request the in-flight gauge is incremented once, before
    anything else, and decremented once, after everything else, and its
    value at the end is its value at the start: for the handler on every
    input, and for the gauge scope of the handler around any body,
    whether that body returns or raises. *)
Theorem in_flight_gauge_balanced :
  (forall art data m,
      List.filter is_active_requests_event (calls (Api.predict art data m))
        = [ActiveRequestsInc; ActiveRequestsDec] /\
      (exists t, calls (Api.predict art data m)
                 = ActiveRequestsInc :: t ++ [ActiveRequestsDec]) /\
      active_requests (final (Api.predict art data m)) = active_requests m) /\
  (forall (A : Type) (body : M A) (m : Metrics),
      outcome (Api.in_flight body m)
        = outcome (body (apply_event ActiveRequestsInc m)) /\
      calls (Api.in_flight body m)
        = ActiveRequestsInc ::
          calls (body (apply_event ActiveRequestsInc m)) ++
          [ActiveRequestsDec] /\
      active_requests (final (Api.in_flight body m))
        = active_requests (final (body (apply_event ActiveRequestsInc m)))
          - 1).
Proof.
  split.
  - intros art data m.
    destruct (predict_spec art data) as (o & t & Hrun & Heq).
    rewrite Heq. unfold calls, final, request_calls; simpl.
    pose proof (body_run_gauge_free art data o t Hrun) as Hfree.
    split; [|split].
    + by rewrite List.filter_app, Hfree.
    + by exists t.
    + change (ActiveRequestsInc :: t ++ [ActiveRequestsDec])
        with ([ActiveRequestsInc] ++ t ++ [ActiveRequestsDec]).
      rewrite !apply_events_app.
      unfold apply_events at 1; simpl.
      rewrite apply_events_gauge_free by done.
      unfold apply_events; simpl. lia.
  - intros A body m. rewrite in_flight_run. by unfold outcome, calls, final.
Qed.

(** The gauge scope around a body that raises: the exception leaves the
    handler after the decrement. *)
Example in_flight_raise (e : exn) (m : Metrics) :
  Api.in_flight (raise (A := Api.Payload) e) m =
  (Raise e, apply_events [ActiveRequestsInc; ActiveRequestsDec] m,
   [ActiveRequestsInc; ActiveRequestsDec]).
Proof. reflexivity. Qed.

(** C5: when the model or the preprocessor is unset (in particular when
    both are, after a failed load), [/predict] returns the payload with
    the single key [error] and the not-loaded message, the
    [model_not_loaded] error counter is incremented once and nothing else
    changes, and neither the preprocessor nor the model is called. *)
Theorem not_loaded_response art data m :
  Api.truth (Api.model art) = false \/
  Api.truth (Api.preprocessor art) = false ->
  outcome (Api.predict art data m)
    = Ok {[ "error" :=
              PyStr "Model or preprocessor not loaded. Please check the server logs." ]} /\
  calls (Api.predict art data m)
    = [ActiveRequestsInc; PredictionErrorsInc "model_not_loaded";
       ActiveRequestsDec] /\
  prediction_errors (final (Api.predict art data m))
    = labels_inc "model_not_loaded" (prediction_errors m) /\
  prediction_errors (final (Api.predict art data m)) !! "model_not_loaded"
    = Some (S (default 0%nat (prediction_errors m !! "model_not_loaded"))) /\
  List.filter is_estimator_call (calls (Api.predict art data m)) = [].
Proof.
  intros Hl.
  destruct (predict_spec art data) as (o & t & Hrun & Heq).
  rewrite Heq. unfold outcome, calls, final; simpl.
  destruct Hrun as [_|e [Hm Hp] _|x e [Hm Hp] _ _|x pr e [Hm Hp] _ _ _
                    |x pr pp first label c [Hm Hp] _ _ _ _ _ _];
    try (destruct Hl; congruence).
  unfold request_calls, apply_events; simpl.
  repeat split; try done. unfold labels_inc. by rewrite lookup_insert_eq.
Qed.

Lemma not_loaded_response_witness :
  outcome (Api.predict (Api.mkArtifacts None None) sample_request
             sample_metrics)
    = Ok {[ "error" :=
              PyStr "Model or preprocessor not loaded. Please check the server logs." ]} /\
  prediction_errors
    (final (Api.predict (Api.mkArtifacts None None) sample_request
              sample_metrics)) !! "model_not_loaded" = Some 3%nat.
Proof.
  pose proof (not_loaded_response (Api.mkArtifacts None None) sample_request
                sample_metrics (or_introl eq_refl)) as (Ho & _ & _ & Hc & _).
  split; [exact Ho | exact Hc].
Defined.

(** C6: when the artifacts are loaded and [transform] raises an exception
    [e] on the request, [/predict] returns (it does not raise) the payload
    with the single key [error] whose text ends with [str(e)], the
    [preprocessing_error] error counter is incremented once, and the
    model is not called. *)
Theorem preprocessing_error_response art data m pre e :
  Api.preprocessor art = Some pre ->
  truthy pre = true ->
  Api.truth (Api.model art) = true ->
  transform pre (DataFrame [Api.dict data]) = Raise e ->
  outcome (Api.predict art data m)
    = Ok {[ "error" :=
              PyStr ("Error during data preprocessing: " +:+ exn_str e) ]} /\
  calls (Api.predict art data m)
    = [ActiveRequestsInc; CallTransform;
       PredictionErrorsInc "preprocessing_error"; ActiveRequestsDec] /\
  prediction_errors (final (Api.predict art data m))
    = labels_inc "preprocessing_error" (prediction_errors m) /\
  prediction_errors (final (Api.predict art data m)) !! "preprocessing_error"
    = Some (S (default 0%nat (prediction_errors m !! "preprocessing_error"))).
Proof.
  intros Hpre Tpre Tmo Ht.
  destruct (predict_spec art data) as (o & t & Hrun & Heq).
  rewrite Heq. unfold outcome, calls, final; simpl.
  destruct Hrun as [Hl|e' _ Ht'|x e' _ Ht' _|x pr e' _ Ht' _ _
                    |x pr pp first label c _ Ht' _ _ _ _ _];
    rewrite ?Hpre in *; simpl in *; try congruence.
  - destruct Hl; congruence.
  - assert (e' = e) as -> by congruence.
    unfold request_calls, apply_events; simpl.
    repeat split; try done. unfold labels_inc. by rewrite lookup_insert_eq.
Qed.

Lemma preprocessing_error_response_witness :
  outcome
    (Api.predict
       (Api.mkArtifacts (Some mismatched_preprocessor) (Some binary_model))
       sample_request sample_metrics)
  = Ok {[ "error" :=
            PyStr "Error during data preprocessing: X has 13 features, but StandardScaler is expecting 12 features as input." ]}.
Proof.
  exact (proj1 (preprocessing_error_response
                  (Api.mkArtifacts (Some mismatched_preprocessor)
                     (Some binary_model))
                  sample_request sample_metrics mismatched_preprocessor _
                  eq_refl eq_refl eq_refl eq_refl)).
Defined.

(** C9: the response of [/predict], and the sequence of calls it makes,
    are the same for any two states of the counters, the histogram and
    the gauges, given the same request and the same artifacts. *)
Theorem predict_response_independent_of_metrics art data m1 m2 :
  outcome (Api.predict art data m1) = outcome (Api.predict art data m2) /\
  calls (Api.predict art data m1) = calls (Api.predict art data m2).
Proof.
  destruct (predict_spec art data) as (o & t & _ & Heq).
  by rewrite !Heq.
Qed.

(** C10: a request that returns the success payload increments the
    prediction counter once, at the label of the response, and observes
    the confidence of the response once; a request that returns the
    failure payload (artifacts not loaded, preprocessing failure or
    failure of the model stage) leaves the counter and the histogram as
    they were. *)
Theorem prediction_metrics_updated_on_success_only art data m :
  exists p : Api.Payload,
    outcome (Api.predict art data m) = Ok p /\
    ((exists (label : Z) (c : pyfloat),
         success_shape p /\ ~ pipeline_failure art data /\
         p !! "prediction_label" = Some (PyInt label) /\
         p !! "confidence" = Some (PyFloat c) /\
         List.filter is_prediction_metric_event
           (calls (Api.predict art data m))
           = [PredictionCounterInc (py_str_int label);
              PredictionConfidenceObserve c] /\
         prediction_counter (final (Api.predict art data m))
           = labels_inc (py_str_int label) (prediction_counter m) /\
         prediction_confidence (final (Api.predict art data m))
           = c :: prediction_confidence m) \/
     (failure_shape p /\ pipeline_failure art data /\
      List.filter is_prediction_metric_event (calls (Api.predict art data m))
        = [] /\
      prediction_counter (final (Api.predict art data m))
        = prediction_counter m /\
      prediction_confidence (final (Api.predict art data m))
        = prediction_confidence m)).
Proof.
  destruct (predict_spec art data) as (o & t & Hrun & Heq).
  rewrite Heq. unfold outcome, calls, final; simpl.
  pose proof (body_run_response art data o t Hrun) as Hresp.
  destruct Hrun as [Hl|e Hl Ht|x e Hl Ht Hp|x pr e Hl Ht Hp Hc
                    |x pr pp first label c Hl Ht Hp Hpp Hf Hi Hc];
    destruct Hresp as (p & [= <-] & Hshape);
    (eexists; split; [done|]);
    unfold request_calls, apply_events; simpl.
  1-4: right; destruct Hshape as [[Hs _]|[Hf Hpf]];
       [exfalso; revert Hs; apply failure_not_success; by eexists|done].
  left. exists label, c.
  destruct Hshape as [[Hs Hn]|[Hf' _]];
    [|exfalso; revert Hf'; apply success_not_failure; by eexists _, _, _].
  repeat split; try done; by simplify_map_eq.
Qed.

(** *** Order facts about floats and the maximum of a row *)

Lemma fle_trans a b c : fle a b = true -> fle b c = true -> fle a c = true.
Proof.
  destruct a as [p| | |], b as [q| | |], c as [r| | |]; simpl; try done.
  rewrite !Qle_bool_iff. apply Qle_trans.
Qed.

Lemma fle_total a b :
  fle a a = true -> fle b b = true -> fle a b = false -> fle b a = true.
Proof.
  destruct a as [p| | |], b as [q| | |]; simpl; try done.
  intros _ _ H. apply Qle_bool_iff.
  destruct (Qlt_le_dec q p) as [Hlt|Hle]; [by apply Qlt_le_weak|].
  apply Qle_bool_iff in Hle. congruence.
Qed.

Lemma fle_antisym a b : fle a b = true -> fle b a = true -> feq a b = true.
Proof.
  destruct a as [p| | |], b as [q| | |]; simpl; try done.
  rewrite !Qle_bool_iff, Qeq_bool_iff. apply Qle_antisym.
Qed.

Lemma fle_refl_l a b : fle a b = true -> fle a a = true.
Proof.
  destruct a as [p| | |], b as [q| | |]; simpl; try done;
    intros _; apply Qle_bool_iff, Qle_refl.
Qed.

Lemma fle_refl_r a b : fle a b = true -> fle b b = true.
Proof.
  destruct a as [p| | |], b as [q| | |]; simpl; try done;
    intros _; apply Qle_bool_iff, Qle_refl.
Qed.

Lemma fle_not_nan a b : fle a b = true -> isnan a = false.
Proof. by destruct a as [p| | |], b as [q| | |]. Qed.

(** Folding [np_maximum] over entries bounded by [c]: the result is
    bounded by [c], and it is at least [c] once [c] has been met. *)
Lemma foldl_np_maximum_bounded (c : pyfloat) (xs : list pyfloat) :
  forall acc,
    fle acc c = true ->
    Forall (fun v => fle v c = true) xs ->
    fle (foldl np_maximum acc xs) c = true /\
    (fle c acc = true \/ c ∈ xs -> fle c (foldl np_maximum acc xs) = true).
Proof.
  induction xs as [|v xs IH]; intros acc Hacc Hall; simpl.
  - split; [done|]. intros [H|H]; [done|]. by apply elem_of_nil in H.
  - apply Forall_cons in Hall as [Hv Hall].
    unfold np_maximum at 2 4. rewrite (fle_not_nan _ _ Hacc), orb_false_r.
    destruct (fle v acc) eqn:Hva.
    + destruct (IH acc Hacc Hall) as [Hle Hge]. split; [done|].
      intros [H|H]; [by apply Hge; left|].
      apply elem_of_cons in H as [->|H]; apply Hge; auto.
    + destruct (IH v Hv Hall) as [Hle Hge]. split; [done|].
      intros [H|H].
      * apply Hge. left. apply fle_trans with acc; [done|].
        apply fle_total; [by eapply fle_refl_l|by eapply fle_refl_l|done].
      * apply elem_of_cons in H as [->|H]; apply Hge; auto.
Qed.

(** The maximum of an array with the single row [row] equals, as a float,
    the entry at any index of a largest entry. *)
Lemma np_max_argmax (row : list pyfloat) (k : Z) :
  Z.of_nat (length row) < 2 ^ 63 ->
  is_argmax row k = true ->
  exists c mx,
    np_getitem row k = Ok c /\ np_max [row] = Ok mx /\ feq c mx = true.
Proof.
  intros Hlen. unfold is_argmax. destruct (0 <=? k) eqn:Hk; [|done].
  destruct (row !! Z.to_nat k) as [c|] eqn:Hc; [|done].
  intros Hb.
  assert (Hall : forall v, v ∈ row -> fle v c = true).
  { intros v Hv. apply (proj1 (forallb_forall _ _) Hb).
    by apply list_elem_of_In. }
  assert (Hin : c ∈ row) by (by eapply list_elem_of_lookup_2).
  assert (Hlt : (Z.to_nat k < length row)%nat) by (by eapply lookup_lt_Some).
  exists c.
  assert (Hget : np_getitem row k = Ok c).
  { apply np_getitem_Ok. unfold fits_intp, valid_index.
    split; [lia|]. split; [lia|]. rewrite Z.mod_small by lia. done. }
  unfold np_max. simpl. rewrite app_nil_r.
  destruct row as [|x xs]; [by apply elem_of_nil in Hin|].
  eexists. split; [done|]. split; [done|].
  assert (Hx : fle x c = true) by (apply Hall; left).
  destruct (foldl_np_maximum_bounded c xs x Hx) as [Hle Hge].
  { apply Forall_forall. intros v Hv. apply Hall. by right. }
  apply fle_antisym; [|done]. apply Hge.
  apply elem_of_cons in Hin as [->|Hin]; [left|by right].
  by eapply fle_refl_l.
Qed.

(** The response when every stage succeeds. *)
Lemma predict_success art data m pre mo x prediction probabilities label c :
  Api.preprocessor art = Some pre ->
  Api.model art = Some mo ->
  truthy pre = true ->
  truthy mo = true ->
  transform pre (DataFrame [Api.dict data]) = Ok x ->
  predict mo x = Ok prediction ->
  predict_proba mo x = Ok probabilities ->
  predicted_class prediction = Ok label ->
  confidence_lookup prediction probabilities = Ok c ->
  outcome (Api.predict art data m)
  = Ok (<[ "prediction" :=
             PyStr (if label =? 1 then "Heart Disease"
                    else "No Heart Disease") ]>
        (<[ "prediction_label" := PyInt label ]>
         {[ "confidence" := PyFloat c ]})).
Proof.
  intros Hpre Hmo Tpre Tmo Ht Hp Hpp Hk Hc.
  unfold predicted_class, confidence_lookup, bindR in Hk, Hc.
  unfold_handler. unfold Api.truth, Api.method.
  rewrite Hpre, Hmo, Tpre, Tmo; simpl. rewrite Ht; simpl.
  rewrite Hp, Hpp; simpl.
  destruct (np_getitem prediction 0) as [first|]; [|done]; simpl.
  rewrite Hk in *; simpl.
  destruct (np_getitem probabilities 0) as [row|]; [|done]; simpl.
  by rewrite Hc.
Qed.

(** C7: for a binary model (a probability row with two entries) whose
    row sums to 1 and whose predicted class is the index of a largest
    entry of the row, the handler of [api/main.py] and [predict] of
    [src/inference.py] both succeed on the same processed input, with the
    same label and with confidences that are equal as floats. *)
Theorem binary_confidence_agrees
    pre mo scaler data input_data m x prediction row label :
  truthy pre = true ->
  truthy mo = true ->
  transform pre (DataFrame [Api.dict data]) = Ok x ->
  transform scaler (NDArray [input_data]) = Ok x ->
  predict mo x = Ok prediction ->
  predict_proba mo x = Ok [row] ->
  length row = 2%nat ->
  feq (np_sum row) (Finite 1) = true ->
  predicted_class prediction = Ok label ->
  is_argmax row label = true ->
  exists (p : Api.Payload) (c_api c_inference : pyfloat),
    outcome (Api.predict (Api.mkArtifacts (Some pre) (Some mo)) data m)
      = Ok p /\
    p !! "prediction_label" = Some (PyInt label) /\
    p !! "confidence" = Some (PyFloat c_api) /\
    Inference.predict mo scaler input_data = Ok (label, c_inference) /\
    feq c_api c_inference = true.
Proof.
  intros Tpre Tmo Ht Hts Hp Hpp Hlen _ Hk Harg.
  assert (Hsmall : Z.of_nat (length row) < 2 ^ 63) by (rewrite Hlen; done).
  destruct (np_max_argmax row label Hsmall Harg)
    as (c & mx & Hc & Hmx & Heq).
  assert (Hprob : confidence_lookup prediction [row] = Ok c).
  { unfold predicted_class, confidence_lookup, bindR in *.
    destruct (np_getitem prediction 0) as [first|]; [|done].
    by rewrite Hk. }
  eexists _, c, mx. split.
  { by eapply (predict_success (Api.mkArtifacts (Some pre) (Some mo))). }
  split; [by simplify_map_eq|]. split; [by simplify_map_eq|].
  split; [|done].
  unfold Inference.predict, predicted_class, bindR in *.
  rewrite Hts, Hp, Hpp, Hmx.
  destruct (np_getitem prediction 0) as [first|]; [|done].
  by rewrite Hk.
Qed.

Lemma binary_confidence_agrees_witness :
  exists (p : Api.Payload) (c_api c_inference : pyfloat),
    outcome (Api.predict sample_artifacts sample_request sample_metrics)
      = Ok p /\
    p !! "prediction_label" = Some (PyInt 1) /\
    p !! "confidence" = Some (PyFloat c_api) /\
    Inference.predict binary_model sample_preprocessor sample_features
      = Ok (1, c_inference) /\
    feq c_api c_inference = true.
Proof.
  exact (binary_confidence_agrees sample_preprocessor binary_model
           sample_preprocessor sample_request sample_features sample_metrics
           (NDArray [sample_features]) [SInt 1]
           [Finite (3 # 10); Finite (7 # 10)] 1
           eq_refl eq_refl eq_refl eq_refl eq_refl eq_refl eq_refl eq_refl
           eq_refl eq_refl).
Defined.

(** C8, as stated, fails: with a model over the classes 0..4 that
    predicts class 2, the response is a success payload whose text is
    "No Heart Disease" while its label is not 0. *)
Lemma label_matches_text_counterexample :
  exists p : Api.Payload,
    outcome
      (Api.predict
         (Api.mkArtifacts (Some sample_preprocessor) (Some five_class_model))
         sample_request sample_metrics) = Ok p /\
    success_shape p /\
    p !! "prediction_label" = Some (PyInt 2) /\
    ~ label_matches_text p.
Proof.
  eexists. split; [reflexivity|].
  split; [by eexists _, _, _|]. split; [reflexivity|].
  intros [_ [_ H]]. specialize (H eq_refl). vm_compute in H. discriminate.
Qed.

(** C8, amended: in every successful response the label is 1 exactly
    when the text is "Heart Disease", and the text is "No Heart Disease"
    exactly when the label is not 1; so label 0 always comes with "No
    Heart Disease", and the converse holds for the labels 0 and 1. *)
Theorem prediction_text_follows_label art data m (p : Api.Payload) label :
  outcome (Api.predict art data m) = Ok p ->
  p !! "prediction_label" = Some (PyInt label) ->
  (label = 1 <-> p !! "prediction" = Some (PyStr "Heart Disease")) /\
  (label <> 1 <-> p !! "prediction" = Some (PyStr "No Heart Disease")) /\
  (label = 0 -> p !! "prediction" = Some (PyStr "No Heart Disease")) /\
  (label = 0 \/ label = 1 ->
   (label = 0 <-> p !! "prediction" = Some (PyStr "No Heart Disease"))).
Proof.
  destruct (predict_spec art data) as (o & t & Hrun & Heq).
  rewrite Heq. unfold outcome; simpl. intros -> Hlabel.
  inversion Hrun as [Hl Hp|e Hl Ht Hp|x e Hl Ht Hpr Hp|x pr e Hl Ht Hpr Hc Hp
                     |x pr pp first k c Hl Ht Hpr Hpp Hf Hi Hc Hp];
    subst; try by simplify_map_eq.
  simplify_map_eq.
  destruct (label =? 1) eqn:Hone; simplify_map_eq.
  - assert (label = 1) as -> by lia. split; [done|].
    split; [split; [done|intros [=]]|]. split; [lia|]. intros _.
    split; [lia|intros [=]].
  - assert (label <> 1) by lia. split; [split; [done|intros [=]]|].
    split; [done|]. split; [done|]. intros [->| ->]; [done|lia].
Qed.

Lemma prediction_text_follows_label_witness :
  (<[ "prediction" := PyStr "Heart Disease" ]>
     (<[ "prediction_label" := PyInt 1 ]>
        {[ "confidence" := PyFloat (Finite (7 # 10)) ]}) : Api.Payload)
    !! "prediction" = Some (PyStr "Heart Disease").
Proof.
  exact (proj1 (proj1 (prediction_text_follows_label sample_artifacts
                         sample_request sample_metrics _ 1 eq_refl eq_refl))
           eq_refl).
Defined.

(** C4, as stated, fails: when the preprocessor file is present but is
    not a pickle, [joblib.load] raises an exception that is not a
    [FileNotFoundError]; the loader does not catch it, so the module
    raises at import instead of starting without artifacts. *)
Lemma degraded_start_counterexample :
  load_failure preprocessor_corrupt
    (Exn (OtherException "UnpicklingError") "invalid load key, 'x'.") /\
  ~ degraded_start preprocessor_corrupt fresh_metrics /\
  outcome (Api.load_artifacts preprocessor_corrupt fresh_metrics)
    = Raise (Exn (OtherException "UnpicklingError") "invalid load key, 'x'.").
Proof.
  split; [by left|]. split; [|reflexivity].
  intros [H _]. vm_compute in H. discriminate.
Qed.

(** C4, amended: when loading fails with [FileNotFoundError] (the
    preprocessor or the model file is missing), the loader sets the
    readiness gauge to 0, leaves both artifacts [None] and returns, so
    the process goes on starting; when loading fails with an exception of
    another class, the exception leaves the loader, and the readiness
    gauge is not set. *)
Theorem load_failure_handling joblib_load m e :
  load_failure joblib_load e ->
  (is_FileNotFoundError e = true -> degraded_start joblib_load m) /\
  (is_FileNotFoundError e = false ->
   outcome (Api.load_artifacts joblib_load m) = Raise e /\
   final (Api.load_artifacts joblib_load m) = m /\
   forall v, ModelLoadStatusSet v ∉ calls (Api.load_artifacts joblib_load m)).
Proof.
  unfold degraded_start.
  intros [Hpre|(pre & Hpre & Hmo)]; unfold_handler;
    rewrite Hpre; simpl; rewrite ?Hmo; simpl;
    (split; intros Hc; rewrite Hc; simpl; [done|]);
    (split; [done|]); (split; [done|]); intros v Hin;
    repeat (apply elem_of_cons in Hin as [Hin|Hin]; [done|]);
    by apply elem_of_nil in Hin.
Qed.

Lemma load_failure_handling_witness :
  degraded_start files_missing fresh_metrics.
Proof.
  exact (proj1 (load_failure_handling files_missing fresh_metrics _
                  (or_introl eq_refl)) eq_refl).
Defined.

(** ** Further properties of the handler *)

(** The run of the handler once the artifacts are loaded and
    [transform] and [predict] have succeeded, by the result of the rest
    of the model stage. *)
Lemma predict_after_predict art data m x prediction :
  loaded art ->
  Api.method "transform" transform (Api.preprocessor art)
    (DataFrame [Api.dict data]) = Ok x ->
  Api.method "predict" predict (Api.model art) x = Ok prediction ->
  match bindR (Api.method "predict_proba" predict_proba (Api.model art) x)
          (confidence_lookup prediction) with
  | Raise e =>
      Api.predict art data m =
      (Ok {[ "error" := PyStr ("Error during prediction: " +:+ exn_str e) ]},
       apply_events
         (request_calls [CallTransform; CallPredict; CallPredictProba;
                         PredictionErrorsInc "prediction_error"]) m,
       request_calls [CallTransform; CallPredict; CallPredictProba;
                      PredictionErrorsInc "prediction_error"])
  | Ok c =>
      exists label,
        predicted_class prediction = Ok label /\
        Api.predict art data m =
        (Ok (<[ "prediction" :=
                  PyStr (if label =? 1 then "Heart Disease"
                         else "No Heart Disease") ]>
             (<[ "prediction_label" := PyInt label ]>
              {[ "confidence" := PyFloat c ]})),
         apply_events
           (request_calls [CallTransform; CallPredict; CallPredictProba;
                           PredictionCounterInc (py_str_int label);
                           PredictionConfidenceObserve c]) m,
         request_calls [CallTransform; CallPredict; CallPredictProba;
                        PredictionCounterInc (py_str_int label);
                        PredictionConfidenceObserve c])
  end.
Proof.
  intros [Hm Hpre] Ht Hp.
  destruct (predict_spec art data) as (o & t & Hrun & Heq). rewrite Heq.
  destruct Hrun as [Hl|e Hl Ht'|x' e Hl Ht' Hp'|x' pr e Hl Ht' Hp' Hc
                    |x' pr pp first label c Hl Ht' Hp' Hpp Hf Hi Hc].
  - destruct Hl; congruence.
  - congruence.
  - congruence.
  - assert (x' = x) as -> by congruence.
    assert (pr = prediction) as -> by congruence.
    by rewrite Hc.
  - assert (x' = x) as -> by congruence.
    assert (pr = prediction) as -> by congruence.
    rewrite Hpp. simpl. rewrite Hc. exists label. split; [|done].
    unfold predicted_class, bindR. by rewrite Hf.
Qed.

(** X1: when the artifacts are loaded, [transform] succeeds and
    [model.predict] raises [e], the handler returns the payload with the
    single key [error] and the text "Error during prediction: " followed
    by [str(e)]; the [prediction_error] counter goes up by one,
    [predict_proba] is not called, and the prediction counter and the
    histogram are left as they were. *)
Theorem predict_raises_response art data m x e :
  loaded art ->
  Api.method "transform" transform (Api.preprocessor art)
    (DataFrame [Api.dict data]) = Ok x ->
  Api.method "predict" predict (Api.model art) x = Raise e ->
  outcome (Api.predict art data m)
    = Ok {[ "error" := PyStr ("Error during prediction: " +:+ exn_str e) ]} /\
  calls (Api.predict art data m)
    = [ActiveRequestsInc; CallTransform; CallPredict;
       PredictionErrorsInc "prediction_error"; ActiveRequestsDec] /\
  counter_at "prediction_error"
    (prediction_errors (final (Api.predict art data m)))
    = S (counter_at "prediction_error" (prediction_errors m)) /\
  prediction_counter (final (Api.predict art data m)) = prediction_counter m /\
  prediction_confidence (final (Api.predict art data m))
    = prediction_confidence m.
Proof.
  intros [Hm Hpre] Ht Hp.
  destruct (predict_spec art data) as (o & t & Hrun & Heq). rewrite Heq.
  unfold outcome, calls, final; simpl.
  destruct Hrun as [Hl|e' Hl Ht'|x' e' Hl Ht' Hp'|x' pr e' Hl Ht' Hp' Hc
                    |x' pr pp first label c Hl Ht' Hp' Hpp Hf Hi Hc];
    try (destruct Hl; congruence); try congruence.
  assert (x' = x) as -> by congruence.
  assert (e' = e) as -> by congruence.
  unfold request_calls, apply_events; simpl.
  repeat split; try done.
  unfold counter_at, labels_inc. by rewrite lookup_insert_eq.
Qed.

Lemma predict_raises_response_witness :
  outcome
    (Api.predict
       (Api.mkArtifacts (Some sample_preprocessor) (Some unfitted_model))
       sample_request sample_metrics)
  = Ok {[ "error" :=
            PyStr "Error during prediction: This LogisticRegression instance is not fitted yet." ]}.
Proof.
  exact (proj1 (predict_raises_response
                  (Api.mkArtifacts (Some sample_preprocessor)
                     (Some unfitted_model))
                  sample_request sample_metrics _ _
                  (conj eq_refl eq_refl) eq_refl eq_refl)).
Defined.

Lemma early_confidence_failure_lookup prediction proba e :
  early_confidence_failure prediction proba e ->
  bindR proba (confidence_lookup prediction) = Raise e.
Proof.
  assert (Hfirst : forall (first : scalar) rest,
             np_getitem (first :: rest) 0 = Ok first).
  { intros first rest. by apply np_getitem_Ok. }
  destruct 1 as [e ->|probabilities -> ->|probabilities first rest e -> -> Hi
                 |first rest label -> -> Hi];
    unfold confidence_lookup, bindR; rewrite ?Hfirst, ?Hi; reflexivity.
Qed.

(** X2: when the artifacts are loaded and [transform] and
    [model.predict] succeed, but [predict_proba] raises [e], or
    [prediction[0]], [int(...)] or [prediction_proba[0]] raises [e] (an
    empty prediction array, a prediction that [int] rejects, a
    probability array without rows), the handler returns the [error]
    payload with [str(e)] after both model calls, the [prediction_error]
    counter goes up by one, and the prediction counter and the histogram
    are left as they were. *)
Theorem confidence_raises_response art data m x prediction e :
  loaded art ->
  Api.method "transform" transform (Api.preprocessor art)
    (DataFrame [Api.dict data]) = Ok x ->
  Api.method "predict" predict (Api.model art) x = Ok prediction ->
  early_confidence_failure prediction
    (Api.method "predict_proba" predict_proba (Api.model art) x) e ->
  outcome (Api.predict art data m)
    = Ok {[ "error" := PyStr ("Error during prediction: " +:+ exn_str e) ]} /\
  calls (Api.predict art data m)
    = [ActiveRequestsInc; CallTransform; CallPredict; CallPredictProba;
       PredictionErrorsInc "prediction_error"; ActiveRequestsDec] /\
  counter_at "prediction_error"
    (prediction_errors (final (Api.predict art data m)))
    = S (counter_at "prediction_error" (prediction_errors m)) /\
  prediction_counter (final (Api.predict art data m)) = prediction_counter m /\
  prediction_confidence (final (Api.predict art data m))
    = prediction_confidence m.
Proof.
  intros Hl Ht Hp Hc%early_confidence_failure_lookup.
  pose proof (predict_after_predict art data m x prediction Hl Ht Hp) as H.
  rewrite Hc in H. rewrite H.
  unfold outcome, calls, final, request_calls, apply_events; simpl.
  repeat split; try done.
  unfold counter_at, labels_inc. by rewrite lookup_insert_eq.
Qed.

Lemma confidence_raises_response_witness :
  outcome
    (Api.predict
       (Api.mkArtifacts (Some sample_preprocessor)
          (Some nan_prediction_model))
       sample_request sample_metrics)
  = Ok {[ "error" :=
            PyStr "Error during prediction: cannot convert float NaN to integer" ]}.
Proof.
  exact (proj1 (confidence_raises_response
                  (Api.mkArtifacts (Some sample_preprocessor)
                     (Some nan_prediction_model))
                  sample_request sample_metrics _ _ _
                  (conj eq_refl eq_refl) eq_refl eq_refl
                  (prediction_not_int [SFloat NaN] _
                     [[Finite (3 # 10); Finite (7 # 10)]] (SFloat NaN) []
                     (Exn ValueError "cannot convert float NaN to integer")
                     eq_refl eq_refl eq_refl))).
Defined.

(** X3: when the artifacts are loaded and all three estimator calls
    succeed, with predicted class [label] and first probability row
    [row] of [n] entries: for a label that fits numpy's 64-bit index type
    the handler returns the success payload exactly when
    [-n <= label < n], with the entry of the row at [label mod n] as
    confidence (a negative label counts from the end of the row), and
    otherwise the [error] payload with numpy's out-of-bounds message; for
    a label that does not fit it returns an [error] payload. *)
Theorem label_indexes_probability_row
    art data m x prediction row rest label :
  loaded art ->
  Api.method "transform" transform (Api.preprocessor art)
    (DataFrame [Api.dict data]) = Ok x ->
  Api.method "predict" predict (Api.model art) x = Ok prediction ->
  Api.method "predict_proba" predict_proba (Api.model art) x
    = Ok (row :: rest) ->
  predicted_class prediction = Ok label ->
  (fits_intp label = true ->
   valid_index (length row) label ->
   exists c,
     row !! Z.to_nat (label mod Z.of_nat (length row)) = Some c /\
     outcome (Api.predict art data m)
     = Ok (<[ "prediction" :=
                PyStr (if label =? 1 then "Heart Disease"
                       else "No Heart Disease") ]>
           (<[ "prediction_label" := PyInt label ]>
            {[ "confidence" := PyFloat c ]}))) /\
  (fits_intp label = true ->
   ~ valid_index (length row) label ->
   outcome (Api.predict art data m)
   = Ok {[ "error" :=
             PyStr ("Error during prediction: index " +:+ py_str_int label
                    +:+ " is out of bounds for axis 0 with size " +:+
                    py_str_int (Z.of_nat (length row))) ]}) /\
  (fits_intp label = false ->
   exists message : string,
     outcome (Api.predict art data m)
     = Ok {[ "error" := PyStr ("Error during prediction: " +:+ message) ]}).
Proof.
  intros Hl Ht Hp Hpp Hk.
  pose proof (predict_after_predict art data m x prediction Hl Ht Hp) as H.
  rewrite Hpp in H. simpl in H.
  assert (Hprob : confidence_lookup prediction (row :: rest)
                  = np_getitem row label).
  { unfold predicted_class, confidence_lookup, bindR in *.
    destruct (np_getitem prediction 0) as [first|]; [|done].
    by rewrite Hk. }
  rewrite Hprob in H. split; [|split].
  - intros Hfit Hv.
    destruct (np_getitem_valid row label Hfit Hv) as (c & Hc & Hget).
    rewrite Hget in H. destruct H as (label' & Hk' & H).
    assert (label' = label) as -> by congruence.
    exists c. split; [done|]. by rewrite H.
  - intros Hfit Hv.
    rewrite (np_getitem_invalid row label Hfit Hv) in H. by rewrite H.
  - intros Hfit. rewrite (np_getitem_unfit row label Hfit) in H.
    eexists. by rewrite H.
Qed.

Lemma label_indexes_probability_row_witness :
  outcome
    (Api.predict
       (Api.mkArtifacts (Some sample_preprocessor)
          (Some shifted_label_model))
       sample_request sample_metrics)
  = Ok {[ "error" :=
            PyStr "Error during prediction: index 2 is out of bounds for axis 0 with size 2" ]}.
Proof.
  apply (proj1 (proj2 (label_indexes_probability_row
                  (Api.mkArtifacts (Some sample_preprocessor)
                     (Some shifted_label_model))
                  sample_request sample_metrics _ _ _ _ 2
                  (conj eq_refl eq_refl) eq_refl eq_refl eq_refl eq_refl))
           eq_refl).
  unfold valid_index. simpl. lia.
Defined.

(** X4: the confidence of a success payload is an entry of the first row
    returned by [predict_proba]; so it lies in [0, 1] when the entries of
    that row do. *)
Theorem confidence_from_first_row
    art data m x probabilities (p : Api.Payload) c :
  Api.method "transform" transform (Api.preprocessor art)
    (DataFrame [Api.dict data]) = Ok x ->
  Api.method "predict_proba" predict_proba (Api.model art) x
    = Ok probabilities ->
  outcome (Api.predict art data m) = Ok p ->
  p !! "confidence" = Some (PyFloat c) ->
  exists row,
    probabilities !! 0%nat = Some row /\
    c ∈ row /\
    (Forall (fun v => in_unit_interval v = true) row ->
     in_unit_interval c = true).
Proof.
  intros Ht Hpp.
  destruct (predict_spec art data) as (o & t & Hrun & Heq). rewrite Heq.
  unfold outcome; simpl. intros -> Hconf.
  inversion Hrun as [Hl Hp|e Hl Ht' Hp|x' e Hl Ht' Hpr Hp
                     |x' pr e Hl Ht' Hpr Hc Hp
                     |x' pr pp first k c' Hl Ht' Hpr Hpp' Hf Hi Hc Hp];
    subst; try by simplify_map_eq.
  simplify_map_eq.
  assert (x' = x) as -> by congruence.
  assert (pp = probabilities) as -> by congruence.
  unfold confidence_lookup, bindR in Hc.
  rewrite Hf, Hi in Hc.
  destruct (np_getitem probabilities 0) as [row|] eqn:Hrow; [|done].
  exists row. split; [by apply np_getitem_first|].
  apply np_getitem_elem in Hc. split; [done|].
  intros Hall. by apply (proj1 (Forall_forall _ _) Hall).
Qed.

Lemma confidence_from_first_row_witness :
  exists row,
    [[Finite (3 # 10); Finite (7 # 10)]] !! 0%nat = Some row /\
    Finite (7 # 10) ∈ row /\
    (Forall (fun v => in_unit_interval v = true) row ->
     in_unit_interval (Finite (7 # 10)) = true).
Proof.
  exact (confidence_from_first_row sample_artifacts sample_request
           sample_metrics _ _ _ _ eq_refl eq_refl eq_refl eq_refl).
Defined.

(** What one request does to the metrics: either the prediction counter
    goes up at one label and the histogram gets one observation, or the
    error counter goes up at one of the three error types; the two gauges
    end as they started. *)
Lemma predict_accounting art data m :
  active_requests (final (Api.predict art data m)) = active_requests m /\
  model_load_status (final (Api.predict art data m)) = model_load_status m /\
  ((exists l c,
       List.filter is_counter_event (calls (Api.predict art data m))
         = [PredictionCounterInc l] /\
       prediction_counter (final (Api.predict art data m))
         = labels_inc l (prediction_counter m) /\
       prediction_confidence (final (Api.predict art data m))
         = c :: prediction_confidence m /\
       prediction_errors (final (Api.predict art data m))
         = prediction_errors m) \/
   (exists ty,
       ty ∈ error_types /\
       List.filter is_counter_event (calls (Api.predict art data m))
         = [PredictionErrorsInc ty] /\
       prediction_counter (final (Api.predict art data m))
         = prediction_counter m /\
       prediction_confidence (final (Api.predict art data m))
         = prediction_confidence m /\
       prediction_errors (final (Api.predict art data m))
         = labels_inc ty (prediction_errors m))).
Proof.
  destruct (predict_spec art data) as (o & t & Hrun & Heq). rewrite Heq.
  unfold calls, final, request_calls, apply_events, error_types; simpl.
  destruct Hrun as [_|e _ _|x e _ _ _|x pr e _ _ _ _
                    |x pr pp first label c _ _ _ _ _ _ _];
    simpl; (split; [lia|]); (split; [done|]);
    [right; eexists; split; [|done]; set_solver ..
    |left; by eexists _, _].
Qed.

(** X5: every request increments exactly one counter, once: the
    prediction counter when the response is the success payload, the
    error counter at one of [model_not_loaded], [preprocessing_error] and
    [prediction_error] when it is the failure payload. *)
Theorem one_counter_increment_per_request art data m :
  exists p : Api.Payload,
    outcome (Api.predict art data m) = Ok p /\
    ((exists label,
         success_shape p /\
         p !! "prediction_label" = Some (PyInt label) /\
         List.filter is_counter_event (calls (Api.predict art data m))
           = [PredictionCounterInc (py_str_int label)]) \/
     (exists ty,
         failure_shape p /\
         ty ∈ error_types /\
         List.filter is_counter_event (calls (Api.predict art data m))
           = [PredictionErrorsInc ty])).
Proof.
  destruct (predict_spec art data) as (o & t & Hrun & Heq). rewrite Heq.
  unfold outcome, calls, request_calls, error_types; simpl.
  destruct Hrun as [_|e _ _|x e _ _ _|x pr e _ _ _ _
                    |x pr pp first label c _ _ _ _ _ _ _];
    (eexists; split; [done|]); simpl.
  1-4: right; eexists; split; [by eexists|]; split; [|done]; set_solver.
  left. exists label. split; [by eexists _, _, _|].
  split; [by simplify_map_eq|done].
Qed.

Lemma counter_at_labels_inc l l' c :
  counter_at l' (labels_inc l c)
  = if decide (l = l') then S (counter_at l' c) else counter_at l' c.
Proof.
  unfold counter_at, labels_inc. rewrite lookup_insert.
  by destruct (decide (l = l')) as [->|].
Qed.

(** X6: a request never lowers a count: for every label value, the
    counts of the prediction counter and of the error counter after the
    request are at least, and at most one more than, the counts before. *)
Theorem counters_never_decrease art data m l :
  (counter_at l (prediction_counter m)
   <= counter_at l (prediction_counter (final (Api.predict art data m)))
   <= S (counter_at l (prediction_counter m)))%nat /\
  (counter_at l (prediction_errors m)
   <= counter_at l (prediction_errors (final (Api.predict art data m)))
   <= S (counter_at l (prediction_errors m)))%nat.
Proof.
  destruct (predict_accounting art data m)
    as (_ & _ & [(l' & c & _ & -> & _ & ->)|(ty & _ & _ & -> & _ & ->)]);
    rewrite counter_at_labels_inc; case_decide; lia.
Qed.

(** X7: the handler makes none of the calls of the loader: it neither
    sets the readiness gauge nor calls [joblib.load], and the readiness
    gauge reads after the request what it read before. *)
Theorem predict_leaves_readiness art data m :
  List.filter is_startup_event (calls (Api.predict art data m)) = [] /\
  model_load_status (final (Api.predict art data m)) = model_load_status m.
Proof.
  split; [|apply predict_accounting].
  destruct (predict_spec art data) as (o & t & Hrun & Heq). rewrite Heq.
  unfold calls, request_calls; simpl.
  by destruct Hrun.
Qed.

Lemma counter_total_insert l v (c : gmap string nat) :
  c !! l = None ->
  counter_total (<[l := v]> c) = (v + counter_total c)%nat.
Proof.
  intros Hl. unfold counter_total.
  apply (map_fold_insert_L (fun _ v acc => (v + acc)%nat)); [|done].
  intros. lia.
Qed.

Lemma counter_total_labels_inc l c :
  counter_total (labels_inc l c) = S (counter_total c).
Proof.
  unfold labels_inc. destruct (c !! l) as [v|] eqn:Hl; simpl.
  - rewrite <- (insert_delete_eq c l (S v)).
    rewrite <- (insert_delete_id c l v Hl) at 2.
    rewrite !counter_total_insert by apply lookup_delete_eq. done.
  - by rewrite counter_total_insert.
Qed.

(** X8: after the handler has served any list of requests one after the
    other, the in-flight gauge and the readiness gauge read what they
    read before, the two counters together have grown by the number of
    requests, and the histogram has grown by as many observations as the
    prediction counter has grown. *)
Theorem serve_all_accounting art requests m :
  active_requests (serve_all art requests m) = active_requests m /\
  model_load_status (serve_all art requests m) = model_load_status m /\
  (counter_total (prediction_counter (serve_all art requests m))
   + counter_total (prediction_errors (serve_all art requests m))
   = counter_total (prediction_counter m)
     + counter_total (prediction_errors m) + length requests)%nat /\
  (length (prediction_confidence (serve_all art requests m))
   + counter_total (prediction_counter m)
   = length (prediction_confidence m)
     + counter_total (prediction_counter (serve_all art requests m)))%nat.
Proof.
  revert m. induction requests as [|data requests IH]; intros m.
  - unfold serve_all; simpl. lia.
  - change (serve_all art (data :: requests) m)
      with (serve_all art requests (final (Api.predict art data m))).
    destruct (IH (final (Api.predict art data m))) as (-> & -> & Hc & Hh).
    destruct (predict_accounting art data m)
      as (-> & -> & [(l & c & _ & Hpc & Hhist & Hpe)
                    |(ty & _ & _ & Hpc & Hhist & Hpe)]);
      rewrite Hpc, Hhist, Hpe in *;
      rewrite ?counter_total_labels_inc in *; simpl in *; lia.
Qed.

(** ** Further properties of the loader *)

(** X9: whenever the loader returns, it has set either both artifacts or
    none: both are [None] and the readiness gauge reads 0 after a load
    that failed with [FileNotFoundError], or both hold what [joblib.load]
    returned and the gauge reads 1. *)
Theorem load_artifacts_all_or_nothing joblib_load m art :
  outcome (Api.load_artifacts joblib_load m) = Ok art ->
  (art = Api.mkArtifacts None None /\
   model_load_status (final (Api.load_artifacts joblib_load m)) = 0 /\
   exists e, load_failure joblib_load e /\ is_FileNotFoundError e = true) \/
  (exists pre mo,
      joblib_load Api.preprocessor_path = Ok pre /\
      joblib_load Api.model_path = Ok mo /\
      art = Api.mkArtifacts (Some pre) (Some mo) /\
      model_load_status (final (Api.load_artifacts joblib_load m)) = 1).
Proof.
  unfold load_failure. unfold_handler.
  destruct (joblib_load Api.preprocessor_path) as [pre|e] eqn:Hpre; simpl.
  - destruct (joblib_load Api.model_path) as [mo|e] eqn:Hmo; simpl.
    + intros [= <-]. right. by exists pre, mo.
    + destruct (is_FileNotFoundError e) eqn:He; simpl; [|done].
      intros [= <-]. left. repeat split; try done.
      exists e. split; [|done]. right. by exists pre.
  - destruct (is_FileNotFoundError e) eqn:He; simpl; [|done].
    intros [= <-]. left. repeat split; try done.
    exists e. split; [|done]. by left.
Qed.

Lemma load_artifacts_all_or_nothing_witness :
  (Api.mkArtifacts (Some sample_preprocessor) (Some binary_model)
   = Api.mkArtifacts None None /\
   model_load_status (final (Api.load_artifacts files_present fresh_metrics))
   = 0 /\
   exists e, load_failure files_present e /\ is_FileNotFoundError e = true) \/
  (exists pre mo,
      files_present Api.preprocessor_path = Ok pre /\
      files_present Api.model_path = Ok mo /\
      Api.mkArtifacts (Some sample_preprocessor) (Some binary_model)
      = Api.mkArtifacts (Some pre) (Some mo) /\
      model_load_status
        (final (Api.load_artifacts files_present fresh_metrics)) = 1).
Proof.
  exact (load_artifacts_all_or_nothing files_present fresh_metrics _ eq_refl).
Defined.

(** X10: the loader opens the preprocessor file first, and when that
    load raises, whatever the exception, it does not open the model
    file. *)
Theorem model_file_not_opened_after_failure joblib_load m e :
  joblib_load Api.preprocessor_path = Raise e ->
  head (calls (Api.load_artifacts joblib_load m))
    = Some (JoblibLoad Api.preprocessor_path) /\
  JoblibLoad Api.model_path ∉ calls (Api.load_artifacts joblib_load m).
Proof.
  intros Hpre. unfold_handler. rewrite Hpre; simpl.
  destruct (is_FileNotFoundError e); simpl; (split; [done|]);
    intros Hin;
    repeat (apply elem_of_cons in Hin as [Hin|Hin]; [done|]);
    by apply elem_of_nil in Hin.
Qed.

Lemma model_file_not_opened_after_failure_witness :
  head (calls (Api.load_artifacts files_missing fresh_metrics))
    = Some (JoblibLoad Api.preprocessor_path) /\
  JoblibLoad Api.model_path
    ∉ calls (Api.load_artifacts files_missing fresh_metrics).
Proof.
  exact (model_file_not_opened_after_failure files_missing fresh_metrics _
           eq_refl).
Defined.

(** X11: when the loader has returned and the readiness gauge reads 0,
    every request to the handler, whatever its fields and the state of
    the metrics, is answered with the not-loaded [error] payload, counts
    one [model_not_loaded] error and calls no estimator. *)
Theorem requests_after_degraded_start joblib_load m0 art data m :
  outcome (Api.load_artifacts joblib_load m0) = Ok art ->
  model_load_status (final (Api.load_artifacts joblib_load m0)) = 0 ->
  outcome (Api.predict art data m)
    = Ok {[ "error" :=
              PyStr "Model or preprocessor not loaded. Please check the server logs." ]} /\
  calls (Api.predict art data m)
    = [ActiveRequestsInc; PredictionErrorsInc "model_not_loaded";
       ActiveRequestsDec].
Proof.
  intros Hload Hgauge.
  assert (Hart : art = Api.mkArtifacts None None).
  { revert Hload Hgauge. unfold_handler.
    destruct (joblib_load Api.preprocessor_path) as [pre|e]; simpl.
    - destruct (joblib_load Api.model_path) as [mo|e]; simpl; [done|].
      destruct (is_FileNotFoundError e); simpl; [|done]. by intros [= <-].
    - destruct (is_FileNotFoundError e); simpl; [|done]. by intros [= <-]. }
  by subst art.
Qed.

Lemma requests_after_degraded_start_witness :
  outcome (Api.predict (Api.mkArtifacts None None) sample_request
             sample_metrics)
    = Ok {[ "error" :=
              PyStr "Model or preprocessor not loaded. Please check the server logs." ]} /\
  calls (Api.predict (Api.mkArtifacts None None) sample_request
           sample_metrics)
    = [ActiveRequestsInc; PredictionErrorsInc "model_not_loaded";
       ActiveRequestsDec].
Proof.
  exact (requests_after_degraded_start files_missing fresh_metrics _
           sample_request sample_metrics eq_refl eq_refl).
Defined.

(** ** The handler against [src/inference.py] *)

Lemma fle_refl a : isnan a = false -> fle a a = true.
Proof.
  destruct a as [p| | |]; simpl; try done.
  intros _. apply Qle_bool_iff, Qle_refl.
Qed.

Lemma feq_fle a b : feq a b = true -> fle b a = true.
Proof.
  destruct a as [p| | |], b as [q| | |]; simpl; try done.
  rewrite Qeq_bool_iff, Qle_bool_iff. intros ->. apply Qle_refl.
Qed.

(** Folding [np_maximum] over entries none of which is NaN gives an
    entry that is at least the start value and every entry. *)
Lemma foldl_np_maximum_upper (xs : list pyfloat) :
  forall acc,
    isnan acc = false ->
    Forall (fun v => isnan v = false) xs ->
    foldl np_maximum acc xs ∈ acc :: xs /\
    Forall (fun v => fle v (foldl np_maximum acc xs) = true) (acc :: xs).
Proof.
  induction xs as [|v xs IH]; intros acc Hacc Hall; simpl.
  - split; [left|]. apply Forall_singleton. by apply fle_refl.
  - apply Forall_cons in Hall as [Hv Hall].
    unfold np_maximum at 2 4. rewrite Hacc, orb_false_r.
    destruct (fle v acc) eqn:Hva.
    + destruct (IH acc Hacc Hall) as [Hin Hup].
      apply Forall_cons in Hup as [Ha Hup]. split.
      * apply elem_of_cons in Hin as [->|Hin]; [left|by do 2 right].
      * constructor; [done|].
        constructor; [by apply fle_trans with acc|done].
    + destruct (IH v Hv Hall) as [Hin Hup].
      apply Forall_cons in Hup as [Hv' Hup]. split; [by right|].
      constructor; [|by constructor].
      apply fle_trans with v; [|done].
      apply fle_total; auto using fle_refl.
Qed.

(** X12: on the same model outputs with a single probability row free
    of NaN, whenever the handler returns a success payload,
    [Inference.predict] returns the same label with a confidence that is
    at least the handler's; the two are equal as floats exactly when no
    entry of the row exceeds the probability of the predicted class. *)
Theorem handler_confidence_at_most_inference
    art scaler data input_data m x prediction row (p : Api.Payload) c :
  Api.method "transform" transform (Api.preprocessor art)
    (DataFrame [Api.dict data]) = Ok x ->
  transform scaler (NDArray [input_data]) = Ok x ->
  forall mo,
  Api.model art = Some mo ->
  predict mo x = Ok prediction ->
  predict_proba mo x = Ok [row] ->
  Forall (fun v => isnan v = false) row ->
  outcome (Api.predict art data m) = Ok p ->
  p !! "confidence" = Some (PyFloat c) ->
  exists label c_inference,
    p !! "prediction_label" = Some (PyInt label) /\
    Inference.predict mo scaler input_data = Ok (label, c_inference) /\
    fle c c_inference = true /\
    (feq c c_inference = true <-> Forall (fun v => fle v c = true) row).
Proof.
  intros Ht Hts mo Hmo Hp Hpp Hnan.
  destruct (predict_spec art data) as (o & t & Hrun & Heq). rewrite Heq.
  unfold outcome; simpl. intros -> Hconf.
  inversion Hrun as [Hl Hq|e Hl Ht' Hq|x' e Hl Ht' Hpr Hq
                     |x' pr e Hl Ht' Hpr Hc Hq
                     |x' pr pp first k c' Hl Ht' Hpr Hpp' Hf Hi Hc Hq];
    subst; try by simplify_map_eq.
  simplify_map_eq.
  assert (x' = x) as -> by congruence.
  rewrite Hmo in *; simpl in *.
  assert (pr = prediction) as -> by congruence.
  assert (pp = [row]) as -> by congruence.
  unfold confidence_lookup, bindR in Hc.
  rewrite Hf, Hi in Hc. change (np_getitem [row] 0) with (Ok row) in Hc.
  apply np_getitem_elem in Hc.
  destruct row as [|v row]; [by apply elem_of_nil in Hc|].
  apply Forall_cons in Hnan as [Hv Hnan].
  destruct (foldl_np_maximum_upper row v Hv Hnan) as [Hin Hup].
  exists k, (foldl np_maximum v row).
  split; [done|]. split.
  { unfold Inference.predict, np_max, bindR.
    rewrite Hts, Hp, Hf, Hpp; simpl. rewrite app_nil_r. by rewrite Hi. }
  split; [by apply (proj1 (Forall_forall _ _) Hup)|]. split.
  - intros Hfeq. apply Forall_forall. intros w Hw.
    apply fle_trans with (foldl np_maximum v row).
    + by apply (proj1 (Forall_forall _ _) Hup).
    + by apply feq_fle.
  - intros Hall. apply fle_antisym.
    + by apply (proj1 (Forall_forall _ _) Hup).
    + by apply (proj1 (Forall_forall _ _) Hall).
Qed.

Lemma handler_confidence_at_most_inference_witness :
  exists label c_inference,
    (<[ "prediction" := PyStr "No Heart Disease" ]>
       (<[ "prediction_label" := PyInt 2 ]>
          {[ "confidence" := PyFloat (Finite (6 # 10)) ]}) : Api.Payload)
      !! "prediction_label" = Some (PyInt label) /\
    Inference.predict five_class_model sample_preprocessor sample_features
      = Ok (label, c_inference) /\
    fle (Finite (6 # 10)) c_inference = true /\
    (feq (Finite (6 # 10)) c_inference = true <->
     Forall (fun v => fle v (Finite (6 # 10)) = true)
       [Finite (1 # 10); Finite (1 # 10); Finite (6 # 10); Finite (1 # 10);
        Finite (1 # 10)]).
Proof.
  refine (handler_confidence_at_most_inference
            (Api.mkArtifacts (Some sample_preprocessor)
               (Some five_class_model))
            sample_preprocessor sample_request sample_features sample_metrics
            _ _ _ _ (Finite (6 # 10)) eq_refl eq_refl five_class_model
            eq_refl eq_refl eq_refl _ eq_refl eq_refl).
  repeat constructor.
Defined.

(** X13: [Inference.predict] does not use the label as an index: when
    the predicted class is outside the index range of the probability
    row, the handler answers with the [error] payload while
    [Inference.predict], on the same model outputs, returns that label
    with the maximum of the row as confidence. *)
Theorem inference_accepts_label_out_of_range
    art scaler data input_data m x prediction row label :
  loaded art ->
  Api.method "transform" transform (Api.preprocessor art)
    (DataFrame [Api.dict data]) = Ok x ->
  transform scaler (NDArray [input_data]) = Ok x ->
  forall mo,
  Api.model art = Some mo ->
  predict mo x = Ok prediction ->
  predict_proba mo x = Ok [row] ->
  predicted_class prediction = Ok label ->
  row <> [] ->
  ~ valid_index (length row) label ->
  (exists message : string,
      outcome (Api.predict art data m)
      = Ok {[ "error" := PyStr message ]}) /\
  (exists c, Inference.predict mo scaler input_data = Ok (label, c) /\
             np_max [row] = Ok c).
Proof.
  intros Hl Ht Hts mo Hmo Hp Hpp Hk Hne Hv.
  assert (Hp' : Api.method "predict" predict (Api.model art) x
                = Ok prediction) by (by rewrite Hmo).
  pose proof (predict_after_predict art data m x prediction Hl Ht Hp') as H.
  rewrite Hmo in H; simpl in H. rewrite Hpp in H; simpl in H.
  unfold predicted_class, confidence_lookup, bindR in *.
  destruct (np_getitem prediction 0) as [first|] eqn:Hf; [|done].
  rewrite Hk in H. change (np_getitem [row] 0) with (Ok row) in H.
  cbv iota in H.
  destruct (np_getitem_raises row label Hv) as [e He].
  rewrite He in H. rewrite H.
  split; [by eexists|].
  destruct row as [|v row]; [done|].
  exists (foldl np_maximum v row). split; [|by unfold np_max; simpl;
                                             rewrite app_nil_r].
  unfold Inference.predict, np_max, bindR.
  rewrite Hts, Hp, Hf, Hpp; simpl. rewrite app_nil_r. by rewrite Hk.
Qed.

Lemma inference_accepts_label_out_of_range_witness :
  exists c,
    Inference.predict shifted_label_model sample_preprocessor sample_features
      = Ok (2, c) /\
    np_max [[Finite (3 # 10); Finite (7 # 10)]] = Ok c.
Proof.
  refine (proj2 (inference_accepts_label_out_of_range
                   (Api.mkArtifacts (Some sample_preprocessor)
                      (Some shifted_label_model))
                   sample_preprocessor sample_request sample_features
                   sample_metrics _ _ _ 2 (conj eq_refl eq_refl) eq_refl
                   eq_refl shifted_label_model eq_refl eq_refl eq_refl
                   eq_refl _ _)).
  - discriminate.
  - unfold valid_index. simpl. lia.
Defined.
